(** * WebScraperHumanos: the scrape-extract-score pipeline

    A shallow embedding of the Python backend (app/models, app/services,
    app/scraper, app/api) and the properties of its lead scoring, contact
    extraction, navigation retry loop and scraping-job life cycle.

    Conventions of the embedding
    - a Python [str] is the list of its code points ([pystr]); literals are
      written as UTF-8 source text and decoded by [u];
    - a Python [int] is a [Z], a [float] is a binary64 [float];
    - [None] is [None]; a dict used as an ordered map is an association list;
    - [datetime] values are microseconds since the epoch ([Z]); every call
      of [datetime.utcnow()] is an explicit argument or a reading of the
      world's clock;
    - the third-party libraries (the Unicode tables behind [re] and
      [str.lower], email_validator, phonenumbers) are the fields of the
      class [Libs]; the browser and the adapters are oracles of the run. *)

From Stdlib Require Import ZArith NArith List String Ascii Bool Lia Floats.
From Stdlib Require Import DecimalString.
From stdpp Require Import gmap list.
Import ListNotations.

Set Warnings "-inexact-float".
Local Open Scope N_scope.

(* ===================================================================== *)
(** ** Python strings *)
(* ===================================================================== *)

Module PyStr.

(** A [str] is a sequence of Unicode code points. *)
Definition pystr : Type := list N.

(** UTF-8 decoder for literals: [need] continuation bytes are still
    expected for the code point whose high bits are in [acc]. *)
Fixpoint utf8_decode (bs : list N) (need : nat) (acc : N) : pystr :=
  match bs with
  | [] => []
  | b :: bs' =>
      match need with
      | O =>
          if b <? 128 then b :: utf8_decode bs' 0 0
          else if b <? 224 then utf8_decode bs' 1 (b - 192)
          else if b <? 240 then utf8_decode bs' 2 (b - 224)
          else utf8_decode bs' 3 (b - 240)
      | S n =>
          let acc' := acc * 64 + (b - 128) in
          match n with
          | O => acc' :: utf8_decode bs' 0 0
          | S _ => utf8_decode bs' n acc'
          end
      end
  end.

Definition u (s : string) : pystr :=
  utf8_decode (List.map N_of_ascii (list_ascii_of_string s)) 0 0.

(** [a == b] on strings. *)
Fixpoint str_eqb (a b : pystr) : bool :=
  match a, b with
  | [], [] => true
  | x :: a', y :: b' => (x =? y) && str_eqb a' b'
  | _, _ => false
  end.

(** [x in l] for a list (or the keys of a dict) of strings. *)
Definition str_in (x : pystr) (l : list pystr) : bool :=
  existsb (str_eqb x) l.

(** [s.startswith(p)] *)
Fixpoint startswith (p s : pystr) : bool :=
  match p, s with
  | [], _ => true
  | x :: p', y :: s' => (x =? y) && startswith p' s'
  | _ :: _, [] => false
  end.

(** [sub in s]: [sub] occurs in [s] as a contiguous substring. *)
Fixpoint contains (sub s : pystr) : bool :=
  startswith sub s ||
  match s with
  | [] => false
  | _ :: s' => contains sub s'
  end.

(** [s.split(sep)] for a one-character separator: never empty. *)
Fixpoint split (sep : N) (s : pystr) : list pystr :=
  match s with
  | [] => [[]]
  | c :: s' =>
      if c =? sep then [] :: split sep s'
      else match split sep s' with
           | [] => [[c]]
           | w :: ws => (c :: w) :: ws
           end
  end.

(** [s.replace(a, b)] for one-character [a] and [b]. *)
Definition replace_char (a b : N) (s : pystr) : pystr :=
  List.map (fun c => if c =? a then b else c) s.

(** Truthiness of an [Optional[str]]: [None] and [""] are falsy. *)
Definition truthy (o : option pystr) : bool :=
  match o with
  | Some (_ :: _) => true
  | _ => false
  end.

Definition is_ascii_digit (c : N) : bool := (48 <=? c) && (c <=? 57).
Definition is_ascii_upper (c : N) : bool := (65 <=? c) && (c <=? 90).
Definition is_ascii_lower (c : N) : bool := (97 <=? c) && (c <=? 122).
Definition is_ascii_letter (c : N) : bool :=
  is_ascii_upper c || is_ascii_lower c.

Definition ascii_lower (c : N) : N :=
  if is_ascii_upper c then c + 32 else c.

End PyStr.
Export PyStr.

(* ===================================================================== *)
(** ** Third-party libraries *)
(* ===================================================================== *)

(** What the code takes from outside the repository.
    - [uni_alnum], [uni_digit]: the Unicode tables of [\w] and [\d] for the
      code points from 128 on (never consulted below 128);
    - [uni_lower before c after]: the lower-case mapping of [str.lower] for
      a code point [c >= 128] in its context (the mapping of a capital
      sigma depends on it);
    - [validate_email m]: [validate_email(m, check_deliverability=False)],
      [Some] of [.normalized], [None] when it raises [EmailNotValidError];
    - [phone_e164 cleaned region]: [phonenumbers.parse] followed by
      [is_valid_number] and [format_number(.., E164)]; [None] when the
      parse raises or the number is not valid;
    - [phone_region p]: [parse] followed by [region_code_for_number],
      [None] when the parse raises or no region is known. *)
Class Libs := {
  uni_alnum : N -> bool;
  uni_digit : N -> bool;
  uni_lower : pystr -> N -> pystr -> pystr;
  validate_email : pystr -> option pystr;
  phone_e164 : pystr -> option pystr -> option pystr;
  phone_region : pystr -> option pystr
}.

Section Lower.
Context `{Libs}.

Fixpoint lower_from (before_rev s : pystr) : pystr :=
  match s with
  | [] => []
  | c :: s' =>
      (if c <? 128 then [ascii_lower c]
       else uni_lower (rev before_rev) c s')
        ++ lower_from (c :: before_rev) s'
  end.

(** [s.lower()] *)
Definition lower (s : pystr) : pystr := lower_from [] s.
End Lower.

(* ===================================================================== *)
(** ** The fragment of [re] the extractors use *)
(* ===================================================================== *)

Module Regex.

(** Patterns: a character class under a greedy bounded repetition,
    sequence, ordered alternative and numbered capturing group. *)
Inductive regex : Type :=
| Eps
| Class (p : N -> bool) (lo : nat) (hi : option nat)
| Seq (r1 r2 : regex)
| Alt (r1 r2 : regex)
| Group (i : nat) (r : regex).

Definition captures : Type := list (nat * pystr).

Definition may_take (hi : option nat) : bool :=
  match hi with
  | Some O => false
  | _ => true
  end.

(** [p{lo,hi}] followed by the continuation [k]: the longest run first,
    then shorter ones while [k] fails (backtracking). *)
Fixpoint greedy {R} (p : N -> bool) (lo : nat) (hi : option nat)
    (s : pystr) (k : pystr -> option R) {struct s} : option R :=
  match s with
  | c :: s' =>
      if p c && may_take hi then
        match greedy p (Nat.pred lo) (option_map Nat.pred hi) s' k with
        | Some r => Some r
        | None => match lo with O => k s | S _ => None end
        end
      else match lo with O => k s | S _ => None end
  | [] => match lo with O => k s | S _ => None end
  end.

Fixpoint exec {R} (r : regex) (s : pystr) (c : captures)
    (k : pystr -> captures -> option R) : option R :=
  match r with
  | Eps => k s c
  | Class p lo hi => greedy p lo hi s (fun s' => k s' c)
  | Seq a b => exec a s c (fun s' c' => exec b s' c' k)
  | Alt a b =>
      match exec a s c k with
      | Some x => Some x
      | None => exec b s c k
      end
  | Group i a =>
      exec a s c
        (fun s' c' =>
           k s' ((i, firstn (length s - length s') s) :: c'))
  end.

(** One match: the matched text and the captures. *)
Record re_match := { m_text : pystr; m_caps : captures }.

(** [pattern.match] at the head of [s]. *)
Definition match_at (r : regex) (s : pystr) : option re_match :=
  exec r s []
    (fun s' c =>
       Some {| m_text := firstn (length s - length s') s; m_caps := c |}).

(** The scan of [finditer]: leftmost matches, none overlapping.  [skip]
    counts the characters still covered by the previous match.  (The
    patterns below match no empty string.) *)
Fixpoint scan (r : regex) (s : pystr) (skip : nat) : list re_match :=
  match s with
  | [] => []
  | _ :: s' =>
      match skip with
      | S n => scan r s' n
      | O =>
          match match_at r s with
          | Some m => m :: scan r s' (Nat.pred (length (m_text m)))
          | None => scan r s' 0
          end
      end
  end.

(** [m.group(i)], the empty string for a group that took no part. *)
Fixpoint group (i : nat) (c : captures) : pystr :=
  match c with
  | [] => []
  | (j, v) :: c' => if Nat.eqb i j then v else group i c'
  end.

(** [findall] of a pattern without group, with one group, with two. *)
Definition findall0 (r : regex) (s : pystr) : list pystr :=
  List.map m_text (scan r s 0).
Definition findall1 (r : regex) (s : pystr) : list pystr :=
  List.map (fun m => group 1 (m_caps m)) (scan r s 0).
Definition findall2 (r : regex) (s : pystr) : list (pystr * pystr) :=
  List.map (fun m => (group 1 (m_caps m), group 2 (m_caps m))) (scan r s 0).

(** Pattern builders. *)
Definition one (p : N -> bool) : regex := Class p 1 (Some 1%nat).
Definition opt (p : N -> bool) : regex := Class p 0 (Some 1%nat).
Definition plus (p : N -> bool) : regex := Class p 1 None.
Definition chr (c : N) : regex := one (N.eqb c).

(** A letter of the pattern under [re.IGNORECASE]: both cases, and the
    code points whose case mapping is that letter (dotted capital I and
    dotless i for [i], long s for [s], the Kelvin sign for [k]). *)
Definition ci_char (c x : N) : bool :=
  (ascii_lower x =? ascii_lower c)
  || ((ascii_lower c =? 105) && ((x =? 304) || (x =? 305)))
  || ((ascii_lower c =? 115) && (x =? 383))
  || ((ascii_lower c =? 107) && (x =? 8490)).

Fixpoint lit_ci (s : pystr) : regex :=
  match s with
  | [] => Eps
  | c :: s' => Seq (one (ci_char c)) (lit_ci s')
  end.

(** [[a-zA-Z]] under [re.IGNORECASE]. *)
Definition letter_ci (x : N) : bool :=
  is_ascii_letter x || (x =? 304) || (x =? 305) || (x =? 383) || (x =? 8490).

(** [\s] of a [str] pattern. *)
Definition is_space (x : N) : bool :=
  ((9 <=? x) && (x <=? 13)) || ((28 <=? x) && (x <=? 32))
  || (x =? 133) || (x =? 160) || (x =? 5760)
  || ((8192 <=? x) && (x <=? 8202))
  || (x =? 8232) || (x =? 8233) || (x =? 8239) || (x =? 8287)
  || (x =? 12288).

Section Classes.
Context `{Libs}.

(** [\d] and [\w] of a [str] pattern. *)
Definition is_digit (x : N) : bool :=
  is_ascii_digit x || ((128 <=? x) && uni_digit x).
Definition is_word (x : N) : bool :=
  is_ascii_letter x || is_ascii_digit x || (x =? 95)
  || ((128 <=? x) && uni_alnum x).
End Classes.

End Regex.
Export Regex.

(* ===================================================================== *)
(** ** Shared helpers: ordered dicts, decimal formatting, time *)
(* ===================================================================== *)

Local Open Scope Z_scope.

(** A [dict] with [str] keys, in insertion order. *)
Definition dict (V : Type) : Type := list (pystr * V).

(** [d[k] = v]: an existing key keeps its place and takes the new value,
    a new key goes last. *)
Fixpoint dict_set {V} (k : pystr) (v : V) (d : dict V) : dict V :=
  match d with
  | [] => [(k, v)]
  | (k', v') :: d' =>
      if str_eqb k k' then (k, v) :: d' else (k', v') :: dict_set k v d'
  end.

(** [d.get(k)] *)
Fixpoint dict_get {V} (k : pystr) (d : dict V) : option V :=
  match d with
  | [] => None
  | (k', v) :: d' => if str_eqb k k' then Some v else dict_get k d'
  end.

(** [str(n)] for a non-negative [int]. *)
Definition str_of_nat (n : nat) : pystr :=
  u (NilEmpty.string_of_uint (Nat.to_uint n)).

(** Two decimal digits, as [%H], [%M] and [%S] print them. *)
Definition two_digits (n : Z) : pystr :=
  [Z.to_N (48 + n / 10); Z.to_N (48 + n mod 10)].

Definition microseconds_per_day : Z := 86400000000.

(** [t.strftime("%H:%M:%S")] for [t] in microseconds since the epoch. *)
Definition strftime_HMS (t : Z) : pystr :=
  let secs := (t mod microseconds_per_day) / 1000000 in
  two_digits (secs / 3600) ++ [58%N] ++
  two_digits ((secs / 60) mod 60) ++ [58%N] ++
  two_digits (secs mod 60).

(** [(a - b).days]: a [timedelta] keeps its seconds and microseconds
    non-negative, so [days] is the floor of the difference. *)
Definition timedelta_days (a b : Z) : Z := (a - b) / microseconds_per_day.

(** [max(0, min(100, x))] *)
Definition clamp_0_100 (x : Z) : Z := Z.max 0 (Z.min 100 x).

(* ===================================================================== *)
(** ** app/models/lead.py *)
(* ===================================================================== *)

Module lead.

Inductive LeadStatus := NEW | CONTACTED | QUALIFIED | CONVERTED | LOST.

Inductive LeadPhase := DREAMING | PLANNING | BOOKING.

(** [phase.value] *)
Definition phase_value (p : LeadPhase) : pystr :=
  match p with
  | DREAMING => u "dreaming"
  | PLANNING => u "planning"
  | BOOKING => u "booking"
  end.

Record ContactInfo := {
  email : option pystr;
  phone : option pystr;
  phone_country_code : option pystr;
  whatsapp_available : bool;
  preferred_channel : pystr
}.

(** [ContactInfo()] *)
Definition ContactInfo_default : ContactInfo :=
  {| email := None; phone := None; phone_country_code := None;
     whatsapp_available := false; preferred_channel := u "whatsapp" |}.

Record LeadInteraction := {
  platform : pystr;
  content : pystr;
  url : pystr;
  detected_at : Z;
  sentiment_score : float;
  intent_keywords : list pystr
}.

(** One entry of [score_breakdown]: [vars] of a [ScoreComponent]. *)
Record ScoreEntry := {
  entry_name : pystr;
  entry_points : Z;
  entry_reason : pystr
}.

Record Lead := {
  external_id : option pystr;
  contact : ContactInfo;
  name : option pystr;
  username : option pystr;
  profile_url : option pystr;
  location : option pystr;
  phase : LeadPhase;
  status : LeadStatus;
  score : Z;
  score_breakdown : dict ScoreEntry;
  source_platform : pystr;
  source_url : option pystr;
  interactions : list LeadInteraction;
  detected_keywords : list pystr;
  interests : list pystr;
  interested_destinations : list pystr;
  estimated_travel_start : option Z;
  estimated_travel_end : option Z;
  is_bot : bool;
  bot_probability : float;
  language : pystr;
  created_at : Z;
  updated_at : Z;
  last_interaction_at : option Z;
  notes : list pystr
}.


(** The phase [update_score] assigns to a stored score. *)
Definition phase_of_score (s : Z) : LeadPhase :=
  if 70 <=? s then BOOKING
  else if 40 <=? s then PLANNING
  else DREAMING.

(** [Lead.update_score(new_score, breakdown)] at time [now]. *)
Definition update_score (self : Lead) (new_score : Z)
    (breakdown : dict ScoreEntry) (now : Z) : Lead :=
  let s := Z.max 0 (Z.min 100 new_score) in
  {| external_id := external_id self; contact := contact self;
     name := name self; username := username self;
     profile_url := profile_url self; location := location self;
     phase := phase_of_score s;
     status := status self;
     score := s;
     score_breakdown := breakdown;
     source_platform := source_platform self;
     source_url := source_url self;
     interactions := interactions self;
     detected_keywords := detected_keywords self;
     interests := interests self;
     interested_destinations := interested_destinations self;
     estimated_travel_start := estimated_travel_start self;
     estimated_travel_end := estimated_travel_end self;
     is_bot := is_bot self; bot_probability := bot_probability self;
     language := language self;
     created_at := created_at self;
     updated_at := now;
     last_interaction_at := last_interaction_at self;
     notes := notes self |}.

(** [Lead.add_interaction(interaction)]; [now1] and [now2] are its two
    readings of [datetime.utcnow()]. *)
Definition add_interaction (self : Lead) (interaction : LeadInteraction)
    (now1 now2 : Z) : Lead :=
  {| external_id := external_id self; contact := contact self;
     name := name self; username := username self;
     profile_url := profile_url self; location := location self;
     phase := phase self; status := status self;
     score := score self; score_breakdown := score_breakdown self;
     source_platform := source_platform self;
     source_url := source_url self;
     interactions := interactions self ++ [interaction];
     detected_keywords := detected_keywords self;
     interests := interests self;
     interested_destinations := interested_destinations self;
     estimated_travel_start := estimated_travel_start self;
     estimated_travel_end := estimated_travel_end self;
     is_bot := is_bot self; bot_probability := bot_probability self;
     language := language self;
     created_at := created_at self;
     updated_at := now2;
     last_interaction_at := Some now1;
     notes := notes self |}.

(** [lead.phase = p] *)
Definition set_phase (self : Lead) (p : LeadPhase) : Lead :=
  {| external_id := external_id self; contact := contact self;
     name := name self; username := username self;
     profile_url := profile_url self; location := location self;
     phase := p; status := status self;
     score := score self; score_breakdown := score_breakdown self;
     source_platform := source_platform self;
     source_url := source_url self;
     interactions := interactions self;
     detected_keywords := detected_keywords self;
     interests := interests self;
     interested_destinations := interested_destinations self;
     estimated_travel_start := estimated_travel_start self;
     estimated_travel_end := estimated_travel_end self;
     is_bot := is_bot self; bot_probability := bot_probability self;
     language := language self;
     created_at := created_at self;
     updated_at := updated_at self;
     last_interaction_at := last_interaction_at self;
     notes := notes self |}.

Definition is_hot_lead (self : Lead) : bool :=
  (80 <=? score self) &&
  match phase self with BOOKING => true | _ => false end.

(** [Lead.get_priority_level()] *)
Definition get_priority_level (self : Lead) : pystr :=
  if 80 <=? score self then u "🔥 HOT"
  else if 50 <=? score self then u "🌡️ WARM"
  else u "❄️ COLD".

End lead.

(* ===================================================================== *)
(** ** app/models/scraping_job.py *)
(* ===================================================================== *)

Module scraping_job.

(** The status is stored as a plain [str]. *)
Definition PENDING : pystr := u "pending".
Definition RUNNING : pystr := u "running".
Definition COMPLETED : pystr := u "completed".
Definition FAILED : pystr := u "failed".
Definition CANCELLED : pystr := u "cancelled".

Record ScrapingJob := {
  source_type : pystr;
  target_url : pystr;
  search_query : option pystr;
  status : pystr;
  progress : Z;
  leads_found : Z;
  leads_qualified : Z;
  errors : list pystr;
  config : dict pystr;
  created_at : Z;
  started_at : option Z;
  completed_at : option Z;
  logs : list pystr
}.

(** [ScrapingJob(source_type=.., target_url=.., config=..)] *)
Definition ScrapingJob_new (st url : pystr) (cfg : dict pystr) (now : Z)
    : ScrapingJob :=
  {| source_type := st; target_url := url; search_query := None;
     status := PENDING; progress := 0; leads_found := 0;
     leads_qualified := 0; errors := []; config := cfg;
     created_at := now; started_at := None; completed_at := None;
     logs := [] |}.

Definition start (self : ScrapingJob) (now : Z) : ScrapingJob :=
  {| source_type := source_type self; target_url := target_url self;
     search_query := search_query self;
     status := RUNNING;
     progress := progress self; leads_found := leads_found self;
     leads_qualified := leads_qualified self; errors := errors self;
     config := config self; created_at := created_at self;
     started_at := Some now;
     completed_at := completed_at self; logs := logs self |}.

Definition complete (self : ScrapingJob) (found qualified : Z) (now : Z)
    : ScrapingJob :=
  {| source_type := source_type self; target_url := target_url self;
     search_query := search_query self;
     status := COMPLETED;
     progress := 100;
     leads_found := found;
     leads_qualified := qualified;
     errors := errors self;
     config := config self; created_at := created_at self;
     started_at := started_at self;
     completed_at := Some now;
     logs := logs self |}.

Definition fail (self : ScrapingJob) (error : pystr) (now : Z)
    : ScrapingJob :=
  {| source_type := source_type self; target_url := target_url self;
     search_query := search_query self;
     status := FAILED;
     progress := progress self; leads_found := leads_found self;
     leads_qualified := leads_qualified self;
     errors := errors self ++ [error];
     config := config self; created_at := created_at self;
     started_at := started_at self;
     completed_at := Some now;
     logs := logs self |}.

Definition add_log (self : ScrapingJob) (message : pystr) (now : Z)
    : ScrapingJob :=
  {| source_type := source_type self; target_url := target_url self;
     search_query := search_query self;
     status := status self;
     progress := progress self; leads_found := leads_found self;
     leads_qualified := leads_qualified self; errors := errors self;
     config := config self; created_at := created_at self;
     started_at := started_at self;
     completed_at := completed_at self;
     logs := logs self
             ++ [u "[" ++ strftime_HMS now ++ u "] " ++ message] |}.

Definition update_progress (self : ScrapingJob) (p : Z) : ScrapingJob :=
  {| source_type := source_type self; target_url := target_url self;
     search_query := search_query self;
     status := status self;
     progress := Z.max 0 (Z.min 100 p);
     leads_found := leads_found self;
     leads_qualified := leads_qualified self; errors := errors self;
     config := config self; created_at := created_at self;
     started_at := started_at self;
     completed_at := completed_at self; logs := logs self |}.

(** The states no run leaves: completed, failed, cancelled. *)
Definition terminal (s : pystr) : bool :=
  str_eqb s COMPLETED || str_eqb s FAILED || str_eqb s CANCELLED.

(** The states a run starts from or is in: pending, running. *)
Definition active (s : pystr) : bool :=
  str_eqb s PENDING || str_eqb s RUNNING.

End scraping_job.

(* ===================================================================== *)
(** ** app/config.py *)
(* ===================================================================== *)

Module config.

(** The scoring thresholds of [Settings]; the other settings (database,
    server, browser) play no part below. *)
Record Settings := {
  hot_lead_threshold : Z;
  warm_lead_threshold : Z;
  cold_lead_threshold : Z
}.

(** [Settings()] when the environment overrides nothing. *)
Definition defaults : Settings :=
  {| hot_lead_threshold := 80; warm_lead_threshold := 50;
     cold_lead_threshold := 20 |}.

End config.

(* ===================================================================== *)
(** ** app/services/lead_scorer.py *)
(* ===================================================================== *)

Module lead_scorer.
Import lead.

Record ScoreComponent := {
  name : pystr;
  points : Z;
  reason : pystr
}.

(** [vars(component)] *)
Definition vars (c : ScoreComponent) : ScoreEntry :=
  {| entry_name := name c; entry_points := points c;
     entry_reason := reason c |}.

Definition SCORING_RULES : dict Z :=
  [ (u "phone_whatsapp", 35); (u "phone_regular", 25);
    (u "email_valid", 15); (u "email_disposable", -15);
    (u "username_social", 10);
    (u "phase_booking", 30); (u "phase_planning", 20);
    (u "phase_dreaming", 10);
    (u "keyword_price", 10); (u "keyword_book", 10);
    (u "keyword_availability", 8); (u "keyword_dates", 8);
    (u "destination_machu_picchu", 10); (u "destination_popular", 5);
    (u "destination_niche", 8);
    (u "multiple_interactions", 10); (u "recent_activity", 5);
    (u "suspected_bot", -50); (u "spam_indicators", -20);
    (u "no_contact_info", -10) ].

(** [SCORING_RULES.get(k, d)] *)
Definition rules_get (k : pystr) (d : Z) : Z :=
  match dict_get k SCORING_RULES with
  | Some v => v
  | None => d
  end.

(** [SCORING_RULES[k]]; every key the code subscripts is in the table. *)
Definition rules_item (k : string) : Z := rules_get (u k) 0.

Definition PREMIUM_DESTINATIONS : list pystr :=
  [ u "machu picchu"; u "vinicunca"; u "salkantay";
    u "rainbow mountain"; u "camino inca"; u "inca trail" ].

Definition NICHE_DESTINATIONS : list pystr :=
  [ u "choquequirao"; u "ausangate"; u "lares trek";
    u "humantay"; u "palccoyo" ].

(** The local list of [_score_contact_info]. *)
Definition disposable_domains : list pystr :=
  [ u "mailinator.com"; u "tempmail.com"; u "yopmail.com" ].

(** The local dict of [_score_keywords]: keyword to (rule, reason). *)
Definition high_intent_keywords : dict (pystr * pystr) :=
  [ (u "precio", (u "keyword_price", u "Búsqueda de precios"));
    (u "price", (u "keyword_price", u "Price inquiry"));
    (u "reservar", (u "keyword_book", u "Intención de reservar"));
    (u "book", (u "keyword_book", u "Booking intent"));
    (u "disponibilidad",
      (u "keyword_availability", u "Consulta de disponibilidad"));
    (u "availability",
      (u "keyword_availability", u "Availability check")) ].

Section WithLibs.
Context `{Libs}.

(** [email.split("@")[1].lower() if "@" in email else ""] *)
Definition email_domain (e : pystr) : pystr :=
  if contains (u "@") e then lower (nth 1 (split 64%N e) []) else [].

Definition _score_contact_info (l : Lead) : list ScoreComponent :=
  let c := contact l in
  let scores : list ScoreComponent := [] in
  let scores :=
    if truthy (phone c) then
      if whatsapp_available c then
        scores ++
        [ {| name := u "whatsapp_available";
             points := rules_item "phone_whatsapp";
             reason := u "Número de WhatsApp disponible - alta probabilidad de contacto" |} ]
      else
        scores ++
        [ {| name := u "phone_available";
             points := rules_item "phone_regular";
             reason := u "Número de teléfono disponible" |} ]
    else scores in
  let scores :=
    match email c with
    | Some (x :: e) =>
        let domain := email_domain (x :: e) in
        if str_in domain disposable_domains then
          scores ++
          [ {| name := u "disposable_email";
               points := rules_item "email_disposable";
               reason := u "Email desechable detectado - baja calidad" |} ]
        else
          scores ++
          [ {| name := u "valid_email";
               points := rules_item "email_valid";
               reason := u "Email válido disponible" |} ]
    | _ => scores
    end in
  let scores :=
    if negb (truthy (phone c)) && negb (truthy (email c)) then
      scores ++
      [ {| name := u "no_contact";
           points := rules_item "no_contact_info";
           reason := u "Sin información de contacto directo" |} ]
    else scores in
  scores.

Definition _score_travel_phase (l : Lead) : ScoreComponent :=
  let '(pts, rsn) :=
    match phase l with
    | BOOKING =>
        (rules_item "phase_booking",
         u "Fase de reserva - alta intención de compra inmediata")
    | PLANNING =>
        (rules_item "phase_planning",
         u "Fase de planificación - interés activo")
    | DREAMING =>
        (rules_item "phase_dreaming",
         u "Fase de sueño - interés inicial")
    end in
  {| name := u "phase_" ++ phase_value (phase l);
     points := pts; reason := rsn |}.

Definition _score_keywords (l : Lead) : list ScoreComponent :=
  flat_map
    (fun keyword =>
       let kw_lower := lower keyword in
       match dict_get kw_lower high_intent_keywords with
       | Some (nm, rsn) =>
           [ {| name := nm ++ u "_" ++ kw_lower;
                points := rules_get nm 5;
                reason := rsn |} ]
       | None => []
       end)
    (detected_keywords l).

Definition _score_destinations (l : Lead) : list ScoreComponent :=
  List.map
    (fun dest =>
       let dest_lower := lower dest in
       if existsb (fun p => contains p dest_lower) PREMIUM_DESTINATIONS
       then
         {| name := u "destination_" ++ replace_char 32 95 dest_lower;
            points := rules_item "destination_machu_picchu";
            reason := u "Interés en destino premium: " ++ dest |}
       else if existsb (fun n => contains n dest_lower)
                 NICHE_DESTINATIONS
       then
         {| name :=
              u "destination_niche_" ++ replace_char 32 95 dest_lower;
            points := rules_item "destination_niche";
            reason := u "Interés en destino de nicho: " ++ dest |}
       else
         {| name := u "destination_" ++ replace_char 32 95 dest_lower;
            points := rules_item "destination_popular";
            reason := u "Interés en: " ++ dest |})
    (interested_destinations l).

(** [_score_engagement]; [now] is the reading of [datetime.utcnow()]. *)
Definition _score_engagement (l : Lead) (now : Z)
    : list ScoreComponent :=
  let scores : list ScoreComponent := [] in
  let scores :=
    if (3 <? length (interactions l))%nat then
      scores ++
      [ {| name := u "multiple_interactions";
           points := rules_item "multiple_interactions";
           reason :=
             u "Múltiples interacciones detectadas ("
             ++ str_of_nat (length (interactions l)) ++ u ")" |} ]
    else scores in
  let scores :=
    match last_interaction_at l with
    | Some t =>
        let days_since := timedelta_days now t in
        if days_since <=? 7 then
          scores ++
          [ {| name := u "recent_activity";
               points := rules_item "recent_activity";
               reason := u "Actividad en los últimos 7 días" |} ]
        else scores
    | None => scores
    end in
  scores.

Definition _apply_penalties (l : Lead) : list ScoreComponent :=
  if is_bot l || PrimFloat.ltb 0.7%float (bot_probability l) then
    [ {| name := u "suspected_bot";
         points := rules_item "suspected_bot";
         reason := u "Actividad sospechosa de bot detectada" |} ]
  else [].

(** The loop [for comp in ..: components[comp.name] = comp;
    total += comp.points]. *)
Definition accumulate (comps : list ScoreComponent)
    (st : dict ScoreComponent * Z) : dict ScoreComponent * Z :=
  fold_left
    (fun st comp => (dict_set (name comp) comp (fst st),
                     snd st + points comp))
    comps st.

(** [calculate_score(lead)] when [datetime.utcnow()] reads [now]. *)
Definition calculate_score (l : Lead) (now : Z)
    : Z * dict ScoreEntry :=
  let st : dict ScoreComponent * Z := ([], 0) in
  let st := accumulate (_score_contact_info l) st in
  let st := accumulate [_score_travel_phase l] st in
  let st := accumulate (_score_keywords l) st in
  let st := accumulate (_score_destinations l) st in
  let st := accumulate (_score_engagement l now) st in
  let st := accumulate (_apply_penalties l) st in
  let final_score := Z.max 0 (Z.min 100 (snd st)) in
  (final_score, List.map (fun kv => (fst kv, vars (snd kv))) (fst st)).

End WithLibs.

(** [get_lead_priority(score)] under the settings in force. *)
Definition get_lead_priority (settings : config.Settings) (score : Z)
    : pystr :=
  if config.hot_lead_threshold settings <=? score then u "HOT"
  else if config.warm_lead_threshold settings <=? score then u "WARM"
  else u "COLD".

(** [should_notify_sales(lead)] *)
Definition should_notify_sales (settings : config.Settings) (l : Lead)
    : bool :=
  (config.hot_lead_threshold settings <=? score l)
  && match phase l with BOOKING => true | _ => false end
  && whatsapp_available (contact l).

End lead_scorer.

(* ===================================================================== *)
(** ** app/scraper/extractors.py *)
(* ===================================================================== *)

Module extractors.

Record ExtractedContact := {
  type : pystr;
  value : pystr;
  normalized : pystr;
  country_code : option pystr;
  is_whatsapp_compatible : bool;
  confidence : float
}.

(** The three lists [extract_all] returns under the keys ["emails"],
    ["phones"] and ["usernames"]. *)
Record Contacts := {
  emails : list ExtractedContact;
  phones : list ExtractedContact;
  usernames : list ExtractedContact
}.

Definition DISPOSABLE_EMAIL_DOMAINS : list pystr :=
  [ u "mailinator.com"; u "tempmail.com"; u "throwaway.email";
    u "guerrillamail.com"; u "10minutemail.com"; u "yopmail.com";
    u "trashmail.com"; u "fakeinbox.com" ].

(** [[a-zA-Z0-9._]] under [re.IGNORECASE]. *)
Definition handle_char (x : N) : bool :=
  letter_ci x || is_ascii_digit x || (x =? 46)%N || (x =? 95)%N.

(** [@([a-zA-Z0-9._]{1,30})] *)
Definition instagram_username : regex :=
  Seq (chr 64) (Group 1 (Class handle_char 1 (Some 30%nat))).

Section WithLibs.
Context `{Libs}.

(** [[\w._%+-]] and [[\w.-]] *)
Definition local_char (x : N) : bool :=
  is_word x || (x =? 46)%N || (x =? 95)%N || (x =? 37)%N
  || (x =? 43)%N || (x =? 45)%N.
Definition domain_char (x : N) : bool :=
  is_word x || (x =? 46)%N || (x =? 45)%N.

(** [[-.\s]] *)
Definition sep_char (x : N) : bool :=
  (x =? 45)%N || (x =? 46)%N || is_space x.

(** [[\w._%+-]+@[\w.-]+\.[a-zA-Z]{2,}] *)
Definition email : regex :=
  Seq (plus local_char)
    (Seq (chr 64)
       (Seq (plus domain_char)
          (Seq (chr 46) (Class letter_ci 2 None)))).

(** [9\d{2}[-.\s]?\d{3}[-.\s]?\d{3}] *)
Definition peru_mobile : regex :=
  Seq (chr 57)
    (Seq (Class is_digit 2 (Some 2%nat))
       (Seq (opt sep_char)
          (Seq (Class is_digit 3 (Some 3%nat))
             (Seq (opt sep_char) (Class is_digit 3 (Some 3%nat)))))).

(** [(?:\+51\s?)?9\d{2}[-.\s]?\d{3}[-.\s]?\d{3}]: the optional prefix
    is tried first, then the number alone. *)
Definition phone_peru : regex :=
  Alt (Seq (chr 43)
         (Seq (chr 53) (Seq (chr 49) (Seq (opt is_space) peru_mobile))))
      peru_mobile.

(** [\+?\d{1,3}[-.\s]?\(?\d{1,4}\)?[-.\s]?\d{3,4}[-.\s]?\d{4}] *)
Definition phone_international : regex :=
  Seq (opt (N.eqb 43))
    (Seq (Class is_digit 1 (Some 3%nat))
       (Seq (opt sep_char)
          (Seq (opt (N.eqb 40))
             (Seq (Class is_digit 1 (Some 4%nat))
                (Seq (opt (N.eqb 41))
                   (Seq (opt sep_char)
                      (Seq (Class is_digit 3 (Some 4%nat))
                         (Seq (opt sep_char)
                            (Class is_digit 4 (Some 4%nat)))))))))).

(** [wa\.me/(\d+)|api\.whatsapp\.com/send\?phone=(\d+)] *)
Definition whatsapp_link : regex :=
  Alt (Seq (lit_ci (u "wa.me/")) (Group 1 (plus is_digit)))
      (Seq (lit_ci (u "api.whatsapp.com/send?phone="))
           (Group 2 (plus is_digit))).

(** [extract_emails].  A match the validator refuses is skipped.  (A
    normalized address always holds an [@]; the subscript [[1]] of the
    split is read as the empty string otherwise.) *)
Definition extract_emails (text : pystr) : list ExtractedContact :=
  flat_map
    (fun m =>
       match validate_email m with
       | Some norm =>
           let domain := lower (nth 1 (split 64%N norm) []) in
           let is_disposable := str_in domain DISPOSABLE_EMAIL_DOMAINS in
           [ {| type := u "email"; value := m; normalized := norm;
                country_code := None; is_whatsapp_compatible := false;
                confidence :=
                  if is_disposable then 0.3%float else 1%float |} ]
       | None => []
       end)
    (findall0 email text).

(** [_normalize_phone]: [re.sub(r'[^\d+]', '', phone)], then the
    library; any exception gives [None]. *)
Definition _normalize_phone (phone : pystr)
    (default_country : option pystr) : option pystr :=
  let cleaned :=
    List.filter (fun x => is_digit x || (x =? 43)%N) phone in
  phone_e164 cleaned default_country.

Definition _detect_country (phone : pystr) : option pystr :=
  phone_region phone.

(** The state of [extract_phones]: the list [phones] and the set
    [seen]. *)
Definition phone_state : Type := list ExtractedContact * list pystr.

(** First loop: the matches of [phone_peru]. *)
Definition peru_loop (matches : list pystr) (st : phone_state)
    : phone_state :=
  fold_left
    (fun st m =>
       match _normalize_phone m (Some (u "PE")) with
       | Some (x :: n) =>
           let norm := x :: n in
           if negb (str_in norm (snd st)) then
             (fst st ++
              [ {| type := u "phone"; value := m; normalized := norm;
                   country_code := Some (u "PE");
                   is_whatsapp_compatible := true;
                   confidence := 1%float |} ],
              norm :: snd st)
           else st
       | _ => st
       end)
    matches st.

(** Second loop: the matches of [phone_international]. *)
Definition intl_loop (matches : list pystr) (st : phone_state)
    : phone_state :=
  fold_left
    (fun st m =>
       match _normalize_phone m None with
       | Some (x :: n) =>
           let norm := x :: n in
           if negb (str_in norm (snd st)) then
             let country := _detect_country norm in
             (fst st ++
              [ {| type := u "phone"; value := m; normalized := norm;
                   country_code := country;
                   is_whatsapp_compatible := true;
                   confidence := 0.9%float |} ],
              norm :: snd st)
           else st
       | _ => st
       end)
    matches st.

(** Third loop: the matches of [whatsapp_link], each the pair of its
    two groups; [number = match[0] or match[1]]. *)
Definition wa_loop (matches : list (pystr * pystr)) (st : phone_state)
    : phone_state :=
  fold_left
    (fun st m =>
       let number :=
         match fst m with
         | [] => snd m
         | _ :: _ => fst m
         end in
       match number with
       | _ :: _ =>
           if negb (str_in number (snd st)) then
             (fst st ++
              [ {| type := u "phone";
                   value := u "wa.me/" ++ number;
                   normalized := u "+" ++ number;
                   country_code := None;
                   is_whatsapp_compatible := true;
                   confidence := 1%float |} ],
              number :: snd st)
           else st
       | [] => st
       end)
    matches st.

(** The state after the two number patterns. *)
Definition number_pass (text : pystr) : phone_state :=
  intl_loop (findall0 phone_international text)
    (peru_loop (findall0 phone_peru text) ([], [])).

Definition extract_phones (text : pystr) : list ExtractedContact :=
  fst (wa_loop (findall2 whatsapp_link text) (number_pass text)).

Definition username_loop (matches : list pystr)
    (st : list ExtractedContact * list pystr)
    : list ExtractedContact * list pystr :=
  fold_left
    (fun st m =>
       if negb (str_in (lower m) (snd st)) && (2 <? length m)%nat then
         (fst st ++
          [ {| type := u "username"; value := u "@" ++ m;
               normalized := lower m; country_code := None;
               is_whatsapp_compatible := false;
               confidence := 0.8%float |} ],
          lower m :: snd st)
       else st)
    matches st.

Definition extract_usernames (text : pystr) : list ExtractedContact :=
  fst (username_loop (findall1 instagram_username text) ([], [])).

Definition extract_all (text : pystr) : Contacts :=
  {| emails := extract_emails text;
     phones := extract_phones text;
     usernames := extract_usernames text |}.

End WithLibs.

(** *** DataExtractor *)

Definition HIGH_INTENT_KEYWORDS : list pystr :=
  [ u "precio"; u "price"; u "costo"; u "cost";
    u "reservar"; u "book"; u "booking"; u "reserva";
    u "disponibilidad"; u "availability"; u "available";
    u "cuánto cuesta"; u "how much";
    u "entradas"; u "tickets"; u "boletos";
    u "agosto"; u "septiembre"; u "julio";
    u "próximo mes"; u "next month";
    u "este año"; u "this year" ].

Definition PLANNING_KEYWORDS : list pystr :=
  [ u "itinerario"; u "itinerary";
    u "cuántos días"; u "how many days";
    u "mejor época"; u "best time";
    u "clima"; u "weather";
    u "salkantay"; u "camino inca"; u "inca trail";
    u "vs"; u "o mejor"; u "or better";
    u "recomendaciones"; u "recommendations";
    u "qué llevar"; u "what to bring" ].

Definition DREAMING_KEYWORDS : list pystr :=
  [ u "fotos"; u "photos"; u "pictures";
    u "hermoso"; u "beautiful"; u "amazing";
    u "increíble"; u "incredible";
    u "algún día"; u "someday"; u "one day";
    u "sueño con"; u "dream of";
    u "bucket list" ].

(** [sum(1 for kw in kws if kw in text)] *)
Definition count_hits (kws : list pystr) (text : pystr) : nat :=
  length (List.filter (fun kw => contains kw text) kws).

(** [float(n)] for a small count. *)
Definition float_of_nat (n : nat) : float :=
  PrimFloat.of_uint63 (Uint63.of_Z (Z.of_nat n)).

(** [min(a, b)] of two floats: the second when it is smaller. *)
Definition float_min (a b : float) : float :=
  if PrimFloat.ltb b a then b else a.

Definition _detect_travel_phase (text : pystr) : pystr * float :=
  let high_intent_count := count_hits HIGH_INTENT_KEYWORDS text in
  let planning_count := count_hits PLANNING_KEYWORDS text in
  let dreaming_count := count_hits DREAMING_KEYWORDS text in
  let total := (high_intent_count + planning_count + dreaming_count)%nat in
  if (total =? 0)%nat then (u "unknown", 0%float)
  else if (planning_count <=? high_intent_count)%nat
          && (dreaming_count <=? high_intent_count)%nat then
    (u "booking",
     float_min 1%float
       (PrimFloat.mul (float_of_nat high_intent_count) 0.2%float))
  else if (dreaming_count <=? planning_count)%nat then
    (u "planning",
     float_min 1%float
       (PrimFloat.mul (float_of_nat planning_count) 0.15%float))
  else
    (u "dreaming",
     float_min 1%float
       (PrimFloat.mul (float_of_nat dreaming_count) 0.1%float)).

Definition CUSCO_DESTINATIONS : list pystr :=
  [ u "machu picchu"; u "machupicchu";
    u "montaña de colores"; u "rainbow mountain"; u "vinicunca";
    u "valle sagrado"; u "sacred valley";
    u "ollantaytambo"; u "pisac"; u "chinchero";
    u "sacsayhuaman"; u "qenqo"; u "tambomachay";
    u "moray"; u "maras"; u "salineras";
    u "salkantay"; u "choquequirao";
    u "humantay"; u "laguna humantay";
    u "cusco"; u "cuzco"; u "plaza de armas" ].

(** [_detect_destinations]; [title] is [str.title].  (The call
    [.replace("Machu Picchu", "Machu Picchu")] puts a string in its own
    place.) *)
Definition _detect_destinations (title : pystr -> pystr) (text : pystr)
    : list pystr :=
  fold_left
    (fun found dest =>
       if contains dest text then
         let normalized := title dest in
         if negb (str_in normalized found) then found ++ [normalized]
         else found
       else found)
    CUSCO_DESTINATIONS [].

Definition all_keywords : list pystr :=
  HIGH_INTENT_KEYWORDS ++ PLANNING_KEYWORDS ++ DREAMING_KEYWORDS.

Definition _extract_keywords (text : pystr) : list pystr :=
  fold_left
    (fun found kw =>
       if contains kw text && negb (str_in kw found) then found ++ [kw]
       else found)
    all_keywords [].

Definition spanish_words : list pystr :=
  [ u "el"; u "la"; u "de"; u "que"; u "en"; u "para"; u "con"; u "por" ].
Definition english_words : list pystr :=
  [ u "the"; u "is"; u "to"; u "in"; u "for"; u "with"; u "on"; u "at" ].

Section Language.
Context `{Libs}.

Definition _detect_language (text : pystr) : pystr :=
  let text_lower := lower text in
  let spanish_count :=
    length (List.filter
              (fun w => contains (u " " ++ w ++ u " ") text_lower)
              spanish_words) in
  let english_count :=
    length (List.filter
              (fun w => contains (u " " ++ w ++ u " ") text_lower)
              english_words) in
  if (english_count <=? spanish_count)%nat then u "es" else u "en".

End Language.

(** The dict [phase_scores] of [_calculate_initial_score], read with
    [.get(phase, 0)]. *)
Definition initial_phase_score (phase : pystr) : Z :=
  if str_eqb phase (u "booking") then 30
  else if str_eqb phase (u "planning") then 20
  else if str_eqb phase (u "dreaming") then 10
  else if str_eqb phase (u "unknown") then 5
  else 0.

Definition _calculate_initial_score (contacts : Contacts) (phase : pystr)
    (destinations keywords : list pystr) : Z :=
  let score := 0 in
  let score :=
    match phones contacts with
    | _ :: _ =>
        let score := score + 30 in
        if existsb is_whatsapp_compatible (phones contacts)
        then score + 10 else score
    | [] => score
    end in
  let score :=
    match emails contacts with
    | _ :: _ =>
        let score := score + 15 in
        if existsb (fun c => PrimFloat.ltb (confidence c) 1%float)
             (emails contacts)
        then score - 10 else score
    | [] => score
    end in
  let score := score + initial_phase_score phase in
  let score := score + Z.min 15 (Z.of_nat (length destinations) * 5) in
  let high_intent_found :=
    length (List.filter (fun kw => str_in kw HIGH_INTENT_KEYWORDS)
              keywords) in
  let score := score + Z.min 15 (Z.of_nat high_intent_found * 5) in
  Z.max 0 (Z.min 100 score).

(** The dict [extract_lead_data] returns, by key. *)
Record LeadData := {
  contacts : Contacts;
  phase : pystr;
  intent_score : float;
  destinations : list pystr;
  keywords : list pystr;
  language : pystr;
  initial_score : Z;
  source_url : pystr;
  raw_text : pystr
}.

Section LeadData.
Context `{Libs} (title : pystr -> pystr).

Definition extract_lead_data (text url : pystr) : LeadData :=
  let text_lower := lower text in
  let cs := extract_all text in
  let pi := _detect_travel_phase text_lower in
  let ds := _detect_destinations title text_lower in
  let ks := _extract_keywords text_lower in
  let lang := _detect_language text in
  {| contacts := cs;
     phase := fst pi;
     intent_score := snd pi;
     destinations := ds;
     keywords := ks;
     language := lang;
     initial_score := _calculate_initial_score cs (fst pi) ds ks;
     source_url := url;
     raw_text := firstn 500 text |}.

End LeadData.

End extractors.

(* ===================================================================== *)
(** ** app/scraper/sources.py *)
(* ===================================================================== *)

Module sources.

(** The test of [TripAdvisorScraper._scrape_thread] on the data of a
    post: [lead_data["initial_score"] > 20 or
    lead_data["contacts"]["phones"]]. *)
Definition keeps_post (d : extractors.LeadData) : bool :=
  (20 <? extractors.initial_score d)
  || match extractors.phones (extractors.contacts d) with
     | _ :: _ => true
     | [] => false
     end.

End sources.

(* ===================================================================== *)
(** ** app/api/leads.py *)
(* ===================================================================== *)

Module api_leads.

(** The body of a [POST /leads] request. *)
Record LeadCreate := {
  name : option pystr;
  email : option pystr;
  phone : option pystr;
  source_platform : pystr;
  notes : option pystr
}.

Section WithLibs.
Context `{Libs}.

(** The lead [create_lead] saves; [created] and [updated] are the clock
    readings of the two default timestamps, [now] that of
    [update_score].  (A new lead has no interaction, so the scorer does
    not read the clock.) *)
Definition create_lead (data : LeadCreate) (created updated now : Z)
    : lead.Lead :=
  let contact :=
    {| lead.email := email data;
       lead.phone := phone data;
       lead.phone_country_code := None;
       lead.whatsapp_available := truthy (phone data);
       lead.preferred_channel := u "whatsapp" |} in
  let l :=
    {| lead.external_id := None;
       lead.contact := contact;
       lead.name := name data;
       lead.username := None;
       lead.profile_url := None;
       lead.location := None;
       lead.phase := lead.DREAMING;
       lead.status := lead.NEW;
       lead.score := 0;
       lead.score_breakdown := [];
       lead.source_platform := source_platform data;
       lead.source_url := None;
       lead.interactions := [];
       lead.detected_keywords := [];
       lead.interests := [];
       lead.interested_destinations := [];
       lead.estimated_travel_start := None;
       lead.estimated_travel_end := None;
       lead.is_bot := false;
       lead.bot_probability := 0%float;
       lead.language := u "es";
       lead.created_at := created;
       lead.updated_at := updated;
       lead.last_interaction_at := None;
       lead.notes :=
         match notes data with
         | Some (x :: n) => [x :: n]
         | _ => []
         end |} in
  let sb := lead_scorer.calculate_score l 0 in
  lead.update_score l (fst sb) (snd sb) now.

(** The lead [recalculate_score] saves for the lead [l] it was given:
    [score, breakdown = scorer.calculate_score(lead)] when the clock
    reads [now_score], then [lead.update_score(score, breakdown)] when it
    reads [now_update]. *)
Definition recalculate_score (l : lead.Lead) (now_score now_update : Z)
    : lead.Lead :=
  let sb := lead_scorer.calculate_score l now_score in
  lead.update_score l (fst sb) (snd sb) now_update.

End WithLibs.

End api_leads.

(* ===================================================================== *)
(** ** Exceptions *)
(* ===================================================================== *)

(** An exception in flight: [exc_str] is [str(e)]; [is_Exception] tells an
    instance of [Exception], which [except Exception] catches, from one of
    [BaseException] alone (a cancellation, an interrupt), which it lets
    through. *)
Record PyExc := {
  is_Exception : bool;
  exc_str : pystr
}.

(* ===================================================================== *)
(** ** app/scraper/engine.py *)
(* ===================================================================== *)

Module engine.

(** What [await page.goto(url, ..)] does on one attempt: a response
    with its [ok] flag and status, no response ([None]), or an exception
    (a navigation error, a timeout). *)
Inductive GotoResult :=
| Response (ok : bool) (status : Z)
| NoResponse
| Raises (e : PyExc).

(** The observable steps of [safe_goto]. *)
Inductive Event :=
| Goto (attempt : nat)
| Sleep (seconds : Z).

(** The body of [for attempt in range(max_retries)] over the attempts
    still to make; [goto] is the page, by attempt. *)
Fixpoint goto_loop (goto : nat -> GotoResult) (max_retries : nat)
    (attempts : list nat) (trace : list Event)
    : (PyExc + bool) * list Event :=
  match attempts with
  | [] => (inr false, trace)
  | attempt :: rest =>
      let trace := trace ++ [Goto attempt] in
      match goto attempt with
      | Response true _ => (inr true, trace)
      | Response false _ | NoResponse =>
          goto_loop goto max_retries rest trace
      | Raises e =>
          if is_Exception e then
            let trace :=
              if (attempt <? max_retries - 1)%nat
              then trace ++ [Sleep (2 ^ Z.of_nat attempt)]
              else trace in
            goto_loop goto max_retries rest trace
          else (inl e, trace)
      end
  end.

Definition safe_goto (goto : nat -> GotoResult)
    : (PyExc + bool) * list Event :=
  let max_retries := 3%nat in
  goto_loop goto max_retries (seq 0 max_retries) [].

(** The attempts made and the sleeps taken, in order. *)
Definition attempts_of (t : list Event) : list nat :=
  flat_map (fun e => match e with Goto a => [a] | Sleep _ => [] end) t.
Definition sleeps_of (t : list Event) : list Z :=
  flat_map (fun e => match e with Sleep s => [s] | Goto _ => [] end) t.

End engine.

(* ===================================================================== *)
(** ** app/api/scraper.py *)
(* ===================================================================== *)

Module api_scraper.

(** A candidate result, the dict an adapter yields, by the keys the run
    reads.  A missing key and a [None] are both [None]; a missing list is
    the empty list. *)
Record CandidateResult := {
  r_contacts : extractors.Contacts;
  r_author : option pystr;
  r_author_url : option pystr;
  r_source_url : option pystr;
  r_keywords : list pystr;
  r_destinations : list pystr;
  r_language : option pystr;
  r_phase : option pystr;
  r_content : option pystr;
  r_thread_url : option pystr
}.

(** The process and its store: the two collections, the module global
    [_scraper_running] and the number of clock readings made so far. *)
Record World := {
  jobs : gmap pystr scraping_job.ScrapingJob;
  leads : list lead.Lead;
  _scraper_running : bool;
  ticks : nat
}.

(** What the run meets outside: the clock, browser start-up, the two
    adapters and the insertion of a lead. *)
Record Oracle := {
  time_at : nat -> Z;
  get_scraper_raises : option PyExc;
  tripadvisor_scrape : pystr -> dict pystr -> PyExc + list CandidateResult;
  generic_scrape : pystr -> dict pystr -> PyExc + list CandidateResult;
  lead_save_raises : lead.Lead -> option PyExc
}.

(** *** State and exceptions *)

Definition M (A : Type) : Type := World -> (PyExc + A) * World.

Definition ret {A} (a : A) : M A := fun w => (inr a, w).

Definition bind {A B} (m : M A) (f : A -> M B) : M B :=
  fun w =>
    match m w with
    | (inl e, w') => (inl e, w')
    | (inr a, w') => f a w'
    end.

Definition raise {A} (e : PyExc) : M A := fun w => (inl e, w).

(** [try: body except Exception as e: handler] *)
Definition try_except {A} (body : M A) (handler : PyExc -> M A) : M A :=
  fun w =>
    match body w with
    | (inl e, w') => if is_Exception e then handler e w' else (inl e, w')
    | (inr a, w') => (inr a, w')
    end.

(** [try: body finally: cleanup] *)
Definition try_finally {A} (body : M A) (cleanup : M unit) : M A :=
  fun w =>
    let '(r, w') := body w in
    match cleanup w' with
    | (inl e, w'') => (inl e, w'')
    | (inr _, w'') => (r, w'')
    end.

Notation "x <- m ;; k" := (bind m (fun x => k))
  (at level 100, m at next level, right associativity).
Notation "m ;;; k" := (bind m (fun _ => k))
  (at level 100, right associativity).

(** [_scraper_running = b] *)
Definition set_running (b : bool) : M unit :=
  fun w =>
    (inr tt,
     {| jobs := jobs w; leads := leads w; _scraper_running := b;
        ticks := ticks w |}).

(** [await ScrapingJob.get(job_id)]: a copy of the stored document. *)
Definition ScrapingJob_get (job_id : pystr)
    : M (option scraping_job.ScrapingJob) :=
  fun w => (inr (jobs w !! job_id), w).

(** [await job.save()] for the job of identifier [job_id]. *)
Definition job_save (job_id : pystr) (job : scraping_job.ScrapingJob)
    : M unit :=
  fun w =>
    (inr tt,
     {| jobs := <[job_id := job]> (jobs w); leads := leads w;
        _scraper_running := _scraper_running w; ticks := ticks w |}).

(** [float(n)], and [int(x)] for a float [0 <= x <= bound]: the number
    of the integers [1 .. bound] that are at most [x]. *)
Definition int_of_float (bound : nat) (x : float) : Z :=
  Z.of_nat
    (length
       (List.filter
          (fun k => PrimFloat.leb (extractors.float_of_nat k) x)
          (seq 1 bound))).

(** [50 + int((i + 1) / len(results) * 45)] *)
Definition progress_at (i n : nat) : Z :=
  50 + int_of_float 45
         (PrimFloat.mul
            (PrimFloat.div (extractors.float_of_nat (i + 1))
               (extractors.float_of_nat n))
            45%float).

Section Run.
Context `{Libs} (o : Oracle).

(** [datetime.utcnow()] *)
Definition utcnow : M Z :=
  fun w =>
    (inr (time_at o (ticks w)),
     {| jobs := jobs w; leads := leads w;
        _scraper_running := _scraper_running w;
        ticks := S (ticks w) |}).

(** [await get_scraper()] *)
Definition get_scraper : M unit :=
  match get_scraper_raises o with
  | Some e => raise e
  | None => ret tt
  end.

(** The adapter chosen by [source_type], then its [scrape]. *)
Definition scrape (source_type url : pystr) (config : dict pystr)
    : M (list CandidateResult) :=
  let r :=
    if str_eqb source_type (u "tripadvisor")
    then tripadvisor_scrape o url config
    else generic_scrape o url config in
  match r with
  | inl e => raise e
  | inr results => ret results
  end.

(** [await lead.save()] *)
Definition lead_save (l : lead.Lead) : M unit :=
  match lead_save_raises o l with
  | Some e => raise e
  | None =>
      fun w =>
        (inr tt,
         {| jobs := jobs w; leads := leads w ++ [l];
            _scraper_running := _scraper_running w;
            ticks := ticks w |})
  end.

(** [scorer.calculate_score(lead)]: the clock is read only when the
    lead has a last interaction. *)
Definition calculate_score_now (l : lead.Lead)
    : M (Z * dict lead.ScoreEntry) :=
  match lead.last_interaction_at l with
  | Some _ =>
      now <- utcnow ;; ret (lead_scorer.calculate_score l now)
  | None => ret (lead_scorer.calculate_score l 0)
  end.

(** The [ContactInfo] built from the contacts of a result. *)
Definition contact_of (contacts : extractors.Contacts)
    : lead.ContactInfo :=
  let contact := lead.ContactInfo_default in
  let contact :=
    match extractors.phones contacts with
    | phone_data :: _ =>
        {| lead.email := lead.email contact;
           lead.phone := Some (extractors.normalized phone_data);
           lead.phone_country_code :=
             extractors.country_code phone_data;
           lead.whatsapp_available :=
             extractors.is_whatsapp_compatible phone_data;
           lead.preferred_channel := lead.preferred_channel contact |}
    | [] => contact
    end in
  let contact :=
    match extractors.emails contacts with
    | email_data :: _ =>
        {| lead.email := Some (extractors.normalized email_data);
           lead.phone := lead.phone contact;
           lead.phone_country_code := lead.phone_country_code contact;
           lead.whatsapp_available := lead.whatsapp_available contact;
           lead.preferred_channel := lead.preferred_channel contact |}
    | [] => contact
    end in
  contact.

(** [a or b] for an optional string and a string. *)
Definition or_else (a : option pystr) (b : pystr) : pystr :=
  match a with
  | Some (x :: s) => x :: s
  | _ => b
  end.

(** [LeadPhase(phase) if phase in [..] else LeadPhase.DREAMING] for
    [phase = result.get("phase", "dreaming")]. *)
Definition phase_of (p : option pystr) : lead.LeadPhase :=
  match p with
  | None => lead.DREAMING
  | Some s =>
      if str_eqb s (u "booking") then lead.BOOKING
      else if str_eqb s (u "planning") then lead.PLANNING
      else lead.DREAMING
  end.

(** The loop state: the job object and the two counters. *)
Definition loop_state : Type := scraping_job.ScrapingJob * Z * Z.

(** One turn of [for i, result in enumerate(results)]. *)
Definition process_result (url source_type : pystr) (i n : nat)
    (result : CandidateResult) (st : loop_state) : M loop_state :=
  let '(job, leads_created, leads_qualified) := st in
  try_except
    (let contacts := r_contacts result in
     match extractors.phones contacts, extractors.emails contacts with
     | [], [] => ret st
     | _, _ =>
         let contact := contact_of contacts in
         created <- utcnow ;;
         updated <- utcnow ;;
         let l :=
           {| lead.external_id := None;
              lead.contact := contact;
              lead.name := None;
              lead.username := r_author result;
              lead.profile_url := r_author_url result;
              lead.location := None;
              lead.phase := lead.DREAMING;
              lead.status := lead.NEW;
              lead.score := 0;
              lead.score_breakdown := [];
              lead.source_platform := source_type;
              lead.source_url :=
                Some (or_else (r_source_url result) url);
              lead.interactions := [];
              lead.detected_keywords := r_keywords result;
              lead.interests := [];
              lead.interested_destinations := r_destinations result;
              lead.estimated_travel_start := None;
              lead.estimated_travel_end := None;
              lead.is_bot := false;
              lead.bot_probability := 0%float;
              lead.language :=
                match r_language result with
                | Some lang => lang
                | None => u "es"
                end;
              lead.created_at := created;
              lead.updated_at := updated;
              lead.last_interaction_at := None;
              lead.notes := [] |} in
         let l := lead.set_phase l (phase_of (r_phase result)) in
         l <- (if truthy (r_content result) then
                 detected <- utcnow ;;
                 now1 <- utcnow ;;
                 now2 <- utcnow ;;
                 ret (lead.add_interaction l
                        {| lead.platform := source_type;
                           lead.content :=
                             firstn 500 (or_else (r_content result) []);
                           lead.url :=
                             or_else (r_thread_url result) url;
                           lead.detected_at := detected;
                           lead.sentiment_score := 0%float;
                           lead.intent_keywords := [] |}
                        now1 now2)
               else ret l) ;;
         sb <- calculate_score_now l ;;
         now <- utcnow ;;
         let l := lead.update_score l (fst sb) (snd sb) now in
         lead_save l ;;;
         let leads_created := leads_created + 1 in
         let leads_qualified :=
           if 50 <=? fst sb then leads_qualified + 1
           else leads_qualified in
         let job := scraping_job.update_progress job (progress_at i n) in
         ret (job, leads_created, leads_qualified)
     end)
    (fun e =>
       now <- utcnow ;;
       ret (scraping_job.add_log job
              (u "Error procesando resultado: " ++ exc_str e) now,
            leads_created, leads_qualified)).

Fixpoint process_results (url source_type : pystr) (i n : nat)
    (results : list CandidateResult) (st : loop_state) : M loop_state :=
  match results with
  | [] => ret st
  | result :: rest =>
      st' <- process_result url source_type i n result st ;;
      process_results url source_type (S i) n rest st'
  end.

(** The body of the [try] of [run_scraping_job]. *)
Definition run_body (job_id url source_type : pystr)
    (config : dict pystr) : M unit :=
  set_running true ;;;
  found <- ScrapingJob_get job_id ;;
  match found with
  | None => ret tt
  | Some job =>
      now <- utcnow ;;
      let job := scraping_job.start job now in
      now <- utcnow ;;
      let job :=
        scraping_job.add_log job (u "Iniciando scraping de: " ++ url)
          now in
      job_save job_id job ;;;
      get_scraper ;;;
      now <- utcnow ;;
      let job :=
        scraping_job.add_log job (u "Usando scraper: " ++ source_type)
          now in
      let job := scraping_job.update_progress job 10 in
      job_save job_id job ;;;
      results <- scrape source_type url config ;;
      now <- utcnow ;;
      let job :=
        scraping_job.add_log job
          (u "Extracción completada: "
           ++ str_of_nat (length results) ++ u " resultados") now in
      let job := scraping_job.update_progress job 50 in
      job_save job_id job ;;;
      st <- process_results url source_type 0 (length results) results
              (job, 0, 0) ;;
      let '(job, leads_created, leads_qualified) := st in
      now <- utcnow ;;
      let job :=
        scraping_job.complete job leads_created leads_qualified now in
      now <- utcnow ;;
      let job :=
        scraping_job.add_log job
          (u "✅ Completado: "
           ++ str_of_nat (Z.to_nat leads_created) ++ u " leads creados, "
           ++ str_of_nat (Z.to_nat leads_qualified) ++ u " calificados")
          now in
      job_save job_id job
  end.

(** The [except Exception as e] of [run_scraping_job]. *)
Definition run_handler (job_id : pystr) (e : PyExc) : M unit :=
  found <- ScrapingJob_get job_id ;;
  match found with
  | Some job =>
      now <- utcnow ;;
      let job := scraping_job.fail job (exc_str e) now in
      job_save job_id job
  | None => ret tt
  end.

Definition run_scraping_job (job_id url source_type : pystr)
    (config : dict pystr) : M unit :=
  try_finally
    (try_except
       (run_body job_id url source_type config)
       (run_handler job_id))
    (set_running false).

End Run.

(** The body of a [POST /scraper/start] request, and its answer. *)
Record ScrapeRequest := {
  request_url : pystr;
  request_source_type : pystr;
  request_config : dict pystr
}.

Record ScrapeResponse := {
  response_job_id : pystr;
  response_status : pystr;
  response_message : pystr
}.

(** [HTTPException(status_code=409, detail=..)], by its detail. *)
Definition conflict : PyExc :=
  {| is_Exception := true;
     exc_str := u "Ya hay un trabajo de scraping en ejecución" |}.

Section Start.
Context (o : Oracle) (new_id : World -> pystr).

(** [start_scraping(request, background_tasks)]: [new_id] is the
    identifier the store gives the job on its first [save].  The task
    handed to [background_tasks] is [run_scraping_job] with the job's
    identifier and the fields of the request; it runs after the answer
    is sent. *)
Definition start_scraping (request : ScrapeRequest) : M ScrapeResponse :=
  fun w =>
    if _scraper_running w then raise conflict w
    else
      (now <- utcnow o ;;
       let job :=
         scraping_job.ScrapingJob_new (request_source_type request)
           (request_url request) (request_config request) now in
       let id := new_id w in
       job_save id job ;;;
       ret {| response_job_id := id; response_status := u "pending";
              response_message := u "Trabajo de scraping iniciado" |}) w.

End Start.

End api_scraper.

(* ===================================================================== *)
(** ** Stand-ins and sample data *)
(* ===================================================================== *)

(** A stand-in for the libraries, used where a statement is applied to a
    concrete input.  It knows ASCII only, accepts an address with one [@]
    between two non-empty parts (lower-casing the domain), and knows the
    Peruvian mobile numbers (nine digits from 9, country code 51). *)
Module Standin.

Definition all_digits (s : pystr) : bool := forallb is_ascii_digit s.

Definition peru_national (s : pystr) : bool :=
  (length s =? 9)%nat && all_digits s && startswith (u "9") s.

Definition accept_email (m : pystr) : option pystr :=
  match split 64%N m with
  | [x :: loc; y :: dom] =>
      Some ((x :: loc) ++ u "@" ++ List.map ascii_lower (y :: dom))
  | _ => None
  end.

Definition peru_e164 (cleaned : pystr) (region : option pystr)
    : option pystr :=
  if startswith (u "+51") cleaned && peru_national (skipn 3 cleaned)
  then Some cleaned
  else
    match region with
    | Some r =>
        if str_eqb r (u "PE") && peru_national cleaned
        then Some (u "+51" ++ cleaned)
        else None
    | None => None
    end.

Definition peru_region (p : pystr) : option pystr :=
  if startswith (u "+51") p then Some (u "PE") else None.

Definition libs : Libs :=
  {| uni_alnum := fun _ => false;
     uni_digit := fun _ => false;
     uni_lower := fun _ c _ => [c];
     validate_email := accept_email;
     phone_e164 := peru_e164;
     phone_region := peru_region |}.

End Standin.

Module Samples.


(** A job that ran to completion. *)
Definition finished_job : scraping_job.ScrapingJob :=
  scraping_job.complete
    (scraping_job.start
       (scraping_job.ScrapingJob_new (u "generic")
          (u "https://example.com") [] 0) 1)
    2 1 5.

(** A page that answers 503 once, then 200. *)
Definition page_503_then_200 (attempt : nat) : engine.GotoResult :=
  match attempt with
  | O => engine.Response false 503
  | S _ => engine.Response true 200
  end.

(** A page whose navigation times out on every attempt. *)
Definition page_timeout (attempt : nat) : engine.GotoResult :=
  engine.Raises
    {| is_Exception := true; exc_str := u "Timeout 60000ms exceeded" |}.


(** A clock that advances one second per reading. *)
Definition ticking (n : nat) : Z := Z.of_nat n * 1000000.


(** The store after [start_scraping] created the job ["job-1"]. *)
Definition one_pending_job : api_scraper.World :=
  {| api_scraper.jobs :=
       {[ u "job-1" :=
            scraping_job.ScrapingJob_new (u "generic")
              (u "https://example.com") [] 0 ]};
     api_scraper.leads := [];
     api_scraper._scraper_running := false;
     api_scraper.ticks := 0 |}.

Definition phone_contact (raw norm : string) : extractors.ExtractedContact :=
  {| extractors.type := u "phone"; extractors.value := u raw;
     extractors.normalized := u norm;
     extractors.country_code := Some (u "PE");
     extractors.is_whatsapp_compatible := true;
     extractors.confidence := 1%float |}.

Definition email_contact (addr : string) : extractors.ExtractedContact :=
  {| extractors.type := u "email"; extractors.value := u addr;
     extractors.normalized := u addr;
     extractors.country_code := None;
     extractors.is_whatsapp_compatible := false;
     extractors.confidence := 1%float |}.

(** A candidate with two phones and two emails. *)
Definition two_of_each : api_scraper.CandidateResult :=
  {| api_scraper.r_contacts :=
       {| extractors.emails :=
            [ email_contact "ana@gmail.com"; email_contact "ana@work.pe" ];
          extractors.phones :=
            [ phone_contact "987 654 321" "+51987654321";
              phone_contact "912345678" "+51912345678" ];
          extractors.usernames := [] |};
     api_scraper.r_author := Some (u "ana");
     api_scraper.r_author_url := None;
     api_scraper.r_source_url := None;
     api_scraper.r_keywords := [u "precio"];
     api_scraper.r_destinations := [u "Machu Picchu"];
     api_scraper.r_language := Some (u "es");
     api_scraper.r_phase := Some (u "booking");
     api_scraper.r_content := None;
     api_scraper.r_thread_url := None |}.

(** A run whose adapter yields that candidate. *)
Definition one_candidate : api_scraper.Oracle :=
  {| api_scraper.time_at := ticking;
     api_scraper.get_scraper_raises := None;
     api_scraper.tripadvisor_scrape := fun _ _ => inr [two_of_each];
     api_scraper.generic_scrape := fun _ _ => inr [two_of_each];
     api_scraper.lead_save_raises := fun _ => None |}.

(** A manual entry with a phone and an address. *)
Definition ana : api_leads.LeadCreate :=
  {| api_leads.name := Some (u "Ana");
     api_leads.email := Some (u "ana@gmail.com");
     api_leads.phone := Some (u "+51987654321");
     api_leads.source_platform := u "manual";
     api_leads.notes := None |}.

End Samples.

(* ===================================================================== *)
(** ** The claims in the words of the specification *)
(* ===================================================================== *)

Module Spec.


(** Whether the last interaction of a lead lies within seven days of
    the clock reading [now]. *)
Definition recent (l : lead.Lead) (now : Z) : bool :=
  match lead.last_interaction_at l with
  | Some t => timedelta_days now t <=? 7
  | None => false
  end.

(** The handle the pattern takes after an [@]: the handle characters
    that follow, thirty at most. *)
Fixpoint handle_run (n : nat) (s : pystr) : pystr :=
  match n, s with
  | S n', c :: s' =>
      if extractors.handle_char c then c :: handle_run n' s' else []
  | _, _ => []
  end.




(** No keyword of the three sets occurs in the text. *)
Definition no_keyword (text : pystr) : Prop :=
  forall kw,
    In kw (extractors.HIGH_INTENT_KEYWORDS ++ extractors.PLANNING_KEYWORDS
           ++ extractors.DREAMING_KEYWORDS) ->
    contains kw text = false.

(** The sleeps the retry loop owes after the attempts it made: [2^a]
    seconds after an attempt [a] that raised and is retried. *)
Definition backoff_after (goto : nat -> engine.GotoResult)
    (attempts : list nat) : list Z :=
  flat_map
    (fun a =>
       match goto a with
       | engine.Raises e =>
           if is_Exception e && (a <? 2)%nat then [2 ^ Z.of_nat a] else []
       | _ => []
       end)
    attempts.

Section WithLibs.
Context `{Libs}.


End WithLibs.

End Spec.

(* ===================================================================== *)
(** ** Vocabulary of the proofs *)
(* ===================================================================== *)

(** The match of the handle pattern at an [@] followed by [s1]. *)
Definition handle_match (s1 : pystr) : re_match :=
  {| m_text := 64%N :: Spec.handle_run 30 s1;
     m_caps := [(1%nat, Spec.handle_run 30 s1)] |}.



(** The numbers kept so far are pairwise distinct and all in [seen]. *)
Definition distinct_and_seen
    (st : list extractors.ExtractedContact * list pystr) : Prop :=
  NoDup (List.map extractors.normalized (fst st))
  /\ forall c, In c (fst st) -> In (extractors.normalized c) (snd st).


(** [m] leaves the leads as they are. *)
Definition same_leads {A} (m : api_scraper.M A) : Prop :=
  forall w, api_scraper.leads (snd (m w)) = api_scraper.leads w.




(** The components of a score in evaluation order. *)
Definition all_components `{Libs} (l : lead.Lead) (now : Z)
    : list lead_scorer.ScoreComponent :=
  lead_scorer._score_contact_info l ++ [lead_scorer._score_travel_phase l]
  ++ lead_scorer._score_keywords l ++ lead_scorer._score_destinations l
  ++ lead_scorer._score_engagement l now ++ lead_scorer._apply_penalties l.

(** The components that do not look at the phase. *)
Definition other_components `{Libs} (l : lead.Lead) (now : Z)
    : list lead_scorer.ScoreComponent :=
  lead_scorer._score_contact_info l
  ++ lead_scorer._score_keywords l ++ lead_scorer._score_destinations l
  ++ lead_scorer._score_engagement l now ++ lead_scorer._apply_penalties l.

Definition sum_points (cs : list lead_scorer.ScoreComponent) : Z :=
  fold_right Z.add 0 (List.map lead_scorer.points cs).

(** The last component of the list that has the name [k]. *)
Definition last_named (k : pystr) (cs : list lead_scorer.ScoreComponent)
    : option lead_scorer.ScoreComponent :=
  List.find (fun c => str_eqb k (lead_scorer.name c)) (rev cs).

(** The points of the phase component. *)
Definition phase_points (p : lead.LeadPhase) : Z :=
  match p with
  | lead.BOOKING => 30
  | lead.PLANNING => 20
  | lead.DREAMING => 10
  end.

Definition progress_in_range (j : scraping_job.ScrapingJob) : Prop :=
  0 <= scraping_job.progress j <= 100.

(** Append-if-new over a list: the step of [_extract_keywords] and of
    [_detect_destinations]. *)
Definition add_new {A} (P : A -> bool) (g : A -> pystr)
    (found : list pystr) (x : A) : list pystr :=
  if P x && negb (str_in (g x) found) then found ++ [g x] else found.

(** What every phone contact of [extract_phones] has. *)
Definition whatsapp_phone (c : extractors.ExtractedContact) : Prop :=
  extractors.type c = u "phone"
  /\ extractors.is_whatsapp_compatible c = true
  /\ extractors.normalized c <> [].

(** A text the handle pattern can capture: one to thirty handle
    characters. *)
Definition handle_text (m : pystr) : Prop :=
  (1 <= length m <= 30)%nat /\ forallb extractors.handle_char m = true.

(** What every username contact holds. *)
Definition handle_contact `{Libs} (c : extractors.ExtractedContact)
    : Prop :=
  extractors.type c = u "username"
  /\ extractors.is_whatsapp_compatible c = false
  /\ exists m, extractors.value c = u "@" ++ m
               /\ extractors.normalized c = lower m
               /\ (3 <= length m <= 30)%nat
               /\ forallb extractors.handle_char m = true.

(** The value of a phone contact is a piece of [text], or a link made up
    from the number of a WhatsApp link. *)
Definition value_from (text : pystr) (c : extractors.ExtractedContact)
    : Prop :=
  contains (extractors.value c) text = true
  \/ exists number,
       extractors.value c = u "wa.me/" ++ number
       /\ extractors.normalized c = u "+" ++ number.



(** [m] never raises and touches neither the jobs nor the leads. *)
Definition quiet {A} (m : api_scraper.M A) : Prop :=
  forall w, exists a,
    fst (m w) = inr a
    /\ api_scraper.jobs (snd (m w)) = api_scraper.jobs w
    /\ api_scraper.leads (snd (m w)) = api_scraper.leads w.

(** [m] leaves the jobs alone and, when it returns, has stored the leads
    [new], counted them all and counted some of them as qualified; with
    [one] it stores at most one lead, and none when it raises. *)
Definition tally (one : bool) (c q : Z)
    (m : api_scraper.M api_scraper.loop_state) : Prop :=
  forall w,
    api_scraper.jobs (snd (m w)) = api_scraper.jobs w
    /\ match fst (m w) with
       | inr (_, c', q') =>
           exists new,
             api_scraper.leads (snd (m w)) = api_scraper.leads w ++ new
             /\ c' = c + Z.of_nat (length new)
             /\ q <= q' <= q + Z.of_nat (length new)
             /\ (one = true -> (length new <= 1)%nat)
       | inl _ =>
           one = true ->
           api_scraper.leads (snd (m w)) = api_scraper.leads w
       end.


(* ===================================================================== *)
(** * Properties *)
(* ===================================================================== *)

(** ** Strings *)

Lemma str_eqb_eq (a b : pystr) : str_eqb a b = true <-> a = b.
Proof.
  revert b; induction a as [|x a IH]; intros [|y b]; simpl;
    try (split; [discriminate | congruence]); try tauto.
  rewrite andb_true_iff, N.eqb_eq, IH. split.
  - intros [-> ->]; reflexivity.
  - intros E; injection E; auto.
Qed.

Lemma str_eqb_refl (a : pystr) : str_eqb a a = true.
Proof. apply str_eqb_eq; reflexivity. Qed.

Lemma str_in_In (x : pystr) (l : list pystr) : str_in x l = true <-> In x l.
Proof.
  unfold str_in. rewrite existsb_exists. split.
  - intros (y & Hy & E). apply str_eqb_eq in E. subst; assumption.
  - intros Hx. exists x. split; [assumption | apply str_eqb_refl].
Qed.

Lemma str_in_false (x : pystr) (l : list pystr) :
  str_in x l = false <-> ~ In x l.
Proof.
  rewrite <- str_in_In. destruct (str_in x l); split; congruence.
Qed.

(** ** Lead scoring *)

Section Scoring.
Context `{Libs}.
Import lead lead_scorer.

(** C1.  The total of [calculate_score] lies in [0, 100]; [update_score]
    stores the new score clamped to [0, 100] and sets the phase from the
    stored score: booking from 70, planning from 40, dreaming below. *)
Theorem score_in_range_and_phase_from_score
    (l : Lead) (now new_score t : Z) (breakdown : dict ScoreEntry) :
  0 <= fst (calculate_score l now) <= 100
  /\ score (update_score l new_score breakdown t) = clamp_0_100 new_score
  /\ 0 <= score (update_score l new_score breakdown t) <= 100
  /\ (70 <= score (update_score l new_score breakdown t) ->
      phase (update_score l new_score breakdown t) = BOOKING)
  /\ (40 <= score (update_score l new_score breakdown t) < 70 ->
      phase (update_score l new_score breakdown t) = PLANNING)
  /\ (score (update_score l new_score breakdown t) < 40 ->
      phase (update_score l new_score breakdown t) = DREAMING).
Proof.
  unfold calculate_score, update_score, clamp_0_100, phase_of_score; simpl.
  repeat split; try lia.
  - intros Hs.
    destruct (Z.leb_spec 70 (Z.max 0 (Z.min 100 new_score)));
      [reflexivity | lia].
  - intros Hs.
    destruct (Z.leb_spec 70 (Z.max 0 (Z.min 100 new_score))); [lia |].
    destruct (Z.leb_spec 40 (Z.max 0 (Z.min 100 new_score)));
      [reflexivity | lia].
  - intros Hs.
    destruct (Z.leb_spec 70 (Z.max 0 (Z.min 100 new_score))); [lia |].
    destruct (Z.leb_spec 40 (Z.max 0 (Z.min 100 new_score)));
      [lia | reflexivity].
Qed.




End Scoring.



(** ** The job state machine *)

Lemma terminal_not_active (s : pystr) :
  scraping_job.terminal s = true -> scraping_job.active s = false.
Proof.
  unfold scraping_job.terminal, scraping_job.active.
  rewrite !orb_true_iff, !str_eqb_eq.
  intros [[-> | ->] | ->]; reflexivity.
Qed.

(** C8, as amended.  On a job whose status is completed, failed or
    cancelled, [complete], [fail], [update_progress] and [add_log] never
    give a status of pending or running.  ([start] is left out: it sets
    running whatever the status was.) *)
Theorem terminal_job_stays_terminal
    (j : scraping_job.ScrapingJob) (found qualified p now : Z)
    (error message : pystr) :
  scraping_job.terminal (scraping_job.status j) = true ->
  scraping_job.active
    (scraping_job.status (scraping_job.complete j found qualified now))
  = false
  /\ scraping_job.active
       (scraping_job.status (scraping_job.fail j error now)) = false
  /\ scraping_job.active
       (scraping_job.status (scraping_job.update_progress j p)) = false
  /\ scraping_job.active
       (scraping_job.status (scraping_job.add_log j message now)) = false.
Proof.
  intros Ht. repeat split; try reflexivity;
    simpl; apply terminal_not_active; assumption.
Qed.

Lemma terminal_job_stays_terminal_witness :
  scraping_job.terminal (scraping_job.status Samples.finished_job) = true
  /\ scraping_job.active
       (scraping_job.status
          (scraping_job.complete Samples.finished_job 3 2 9)) = false
  /\ scraping_job.active
       (scraping_job.status
          (scraping_job.fail Samples.finished_job (u "boom") 9)) = false
  /\ scraping_job.active
       (scraping_job.status
          (scraping_job.update_progress Samples.finished_job 40)) = false
  /\ scraping_job.active
       (scraping_job.status
          (scraping_job.add_log Samples.finished_job (u "late") 9)) = false.
Proof.
  split; [reflexivity |].
  apply (terminal_job_stays_terminal Samples.finished_job 3 2 40 9
           (u "boom") (u "late")).
  reflexivity.
Defined.

(** C8, the counterexample.  [start] on a completed job: the status is
    running again. *)
Lemma start_reopens_a_finished_job :
  scraping_job.terminal (scraping_job.status Samples.finished_job) = true
  /\ scraping_job.status (scraping_job.start Samples.finished_job 9)
     = scraping_job.RUNNING
  /\ scraping_job.active
       (scraping_job.status (scraping_job.start Samples.finished_job 9))
     = true.
Proof. repeat split. Qed.

(** ** Navigation with retries *)

Ltac goto_cases goto :=
  unfold engine.safe_goto; simpl;
  destruct (goto 0%nat) as [[|] ?| |e0]; simpl;
    try destruct (is_Exception e0); simpl;
  try (destruct (goto 1%nat) as [[|] ?| |e1]; simpl;
       try destruct (is_Exception e1); simpl);
  try (destruct (goto 2%nat) as [[|] ?| |e2]; simpl;
       try destruct (is_Exception e2); simpl).

(** At most three navigations, whatever the page does. *)
Lemma safe_goto_at_most_three (goto : nat -> engine.GotoResult) :
  (length (engine.attempts_of (snd (engine.safe_goto goto))) <= 3)%nat.
Proof. goto_cases goto; lia. Qed.

(** A boolean comes back when every error the page raises is an
    [Exception]. *)
Lemma safe_goto_returns_bool (goto : nat -> engine.GotoResult) :
  (forall a e, goto a = engine.Raises e -> is_Exception e = true) ->
  exists b, fst (engine.safe_goto goto) = inr b.
Proof.
  intros Hexc. unfold engine.safe_goto; simpl.
  destruct (goto 0%nat) as [[|] ?| |e0] eqn:E0; simpl; eauto;
    try (rewrite (Hexc _ _ E0); simpl);
    (destruct (goto 1%nat) as [[|] ?| |e1] eqn:E1; simpl; eauto;
     try (rewrite (Hexc _ _ E1); simpl);
     (destruct (goto 2%nat) as [[|] ?| |e2] eqn:E2; simpl; eauto;
      try (rewrite (Hexc _ _ E2); simpl); eauto)).
Qed.

(** C7.  The sleeps of [safe_goto] are those after the attempts that
    raised and are retried, and no other: a response that is not OK is
    followed by the next attempt at once.  A page answering 503 and then
    200 is loaded with no sleep between the two attempts; a page that
    times out is retried after 1 and then 2 seconds. *)
Theorem backoff_only_after_raised_errors :
  (forall goto : nat -> engine.GotoResult,
     engine.sleeps_of (snd (engine.safe_goto goto))
     = Spec.backoff_after goto
         (engine.attempts_of (snd (engine.safe_goto goto))))
  /\ engine.safe_goto Samples.page_503_then_200
     = (inr true, [engine.Goto 0; engine.Goto 1])
  /\ engine.safe_goto Samples.page_timeout
     = (inr false,
        [engine.Goto 0; engine.Sleep 1; engine.Goto 1; engine.Sleep 2;
         engine.Goto 2]).
Proof.
  split; [| split; reflexivity].
  intros goto. unfold engine.safe_goto, Spec.backoff_after; simpl.
  destruct (goto 0%nat) as [[|] ?| |e0] eqn:E0; simpl; rewrite ?E0; simpl;
    try reflexivity;
    try (destruct (is_Exception e0) eqn:X0; simpl; rewrite ?E0, ?X0; simpl;
         try reflexivity);
    (destruct (goto 1%nat) as [[|] ?| |e1] eqn:E1; simpl;
       rewrite ?E0, ?X0, ?E1; simpl; try reflexivity;
     try (destruct (is_Exception e1) eqn:X1; simpl;
          rewrite ?E0, ?X0, ?E1, ?X1; simpl; try reflexivity);
     (destruct (goto 2%nat) as [[|] ?| |e2] eqn:E2; simpl;
        rewrite ?E0, ?X0, ?E1, ?X1, ?E2; simpl; try reflexivity;
      try (destruct (is_Exception e2) eqn:X2; simpl;
           rewrite ?E0, ?X0, ?E1, ?X1, ?E2, ?X2; simpl; reflexivity))).
Qed.

(** ** Phase classification *)

Lemma count_hits_zero (kws : list pystr) (text : pystr) :
  extractors.count_hits kws text = 0%nat
  <-> forall kw, In kw kws -> contains kw text = false.
Proof.
  unfold extractors.count_hits. induction kws as [|k kws IH]; simpl.
  - split; [intros _ kw [] | reflexivity].
  - destruct (contains k text) eqn:E; simpl.
    + split; [discriminate |]. intros Hall.
      specialize (Hall k (or_introl eq_refl)). congruence.
    + rewrite IH. split.
      * intros Hall kw [<- | Hin]; auto.
      * intros Hall kw Hin. apply Hall. right; assumption.
Qed.

Lemma no_keyword_counts (text : pystr) :
  Spec.no_keyword text <->
  (extractors.count_hits extractors.HIGH_INTENT_KEYWORDS text
   + extractors.count_hits extractors.PLANNING_KEYWORDS text
   + extractors.count_hits extractors.DREAMING_KEYWORDS text = 0)%nat.
Proof.
  unfold Spec.no_keyword.
  assert (E : forall a b c : nat,
             (a + b + c = 0 <-> a = 0 /\ b = 0 /\ c = 0)%nat) by lia.
  rewrite E, !count_hits_zero. split.
  - intros Hall. repeat split; intros kw Hin; apply Hall;
      rewrite !in_app_iff; auto.
  - intros (Hh & Hp & Hd) kw Hin. rewrite !in_app_iff in Hin.
    destruct Hin as [Hin | [Hin | Hin]]; auto.
Qed.

Section Phase.
Import extractors.


End Phase.

(** ** Contact extraction *)

Section Phones.
Context `{Libs}.
Import extractors.

Lemma distinct_and_seen_add cs seen c :
  distinct_and_seen (cs, seen) ->
  str_in (normalized c) seen = false ->
  distinct_and_seen (cs ++ [c], normalized c :: seen).
Proof.
  intros [Hnd Hseen] Hnew. apply str_in_false in Hnew. split; cbn [fst snd] in *.
  - rewrite List.map_app. cbn [List.map].
    apply NoDup_app. split; [assumption |].
    split; [| apply NoDup_singleton].
    intros x Hx Hx'. apply list_elem_of_In in Hx, Hx'.
    destruct Hx' as [<- | []]. apply Hnew.
    apply in_map_iff in Hx as (c' & <- & Hc'). apply Hseen; assumption.
  - intros c' Hc'. apply in_app_iff in Hc' as [Hc' | [<- | []]].
    + right. apply Hseen; assumption.
    + left; reflexivity.
Qed.

Lemma peru_loop_distinct ms : forall st,
  distinct_and_seen st -> distinct_and_seen (peru_loop ms st).
Proof.
  induction ms as [|m ms IH]; intros st Hst; [exact Hst |].
  unfold peru_loop in *. cbn [fold_left]. apply IH.
  destruct (_normalize_phone m (Some (u "PE"))) as [[|x n]|]; try exact Hst.
  destruct (str_in (x :: n) (snd st)) eqn:E; cbn [negb]; [exact Hst |].
  destruct st as [cs seen].
  apply (distinct_and_seen_add cs seen
           {| type := u "phone"; value := m; normalized := x :: n;
              country_code := Some (u "PE"); is_whatsapp_compatible := true;
              confidence := 1%float |}); assumption.
Qed.

Lemma intl_loop_distinct ms : forall st,
  distinct_and_seen st -> distinct_and_seen (intl_loop ms st).
Proof.
  induction ms as [|m ms IH]; intros st Hst; [exact Hst |].
  unfold intl_loop in *. cbn [fold_left]. apply IH.
  destruct (_normalize_phone m None) as [[|x n]|]; try exact Hst.
  destruct (str_in (x :: n) (snd st)) eqn:E; cbn [negb]; [exact Hst |].
  destruct st as [cs seen].
  apply (distinct_and_seen_add cs seen
           {| type := u "phone"; value := m; normalized := x :: n;
              country_code := _detect_country (x :: n);
              is_whatsapp_compatible := true;
              confidence := 0.9%float |}); assumption.
Qed.

(** What the code does reach: after the two number patterns no two
    contacts have the same normalized form. *)
Lemma number_pass_distinct (text : pystr) :
  NoDup (List.map normalized (fst (number_pass text))).
Proof.
  unfold number_pass.
  apply intl_loop_distinct, peru_loop_distinct.
  split; [constructor | intros c []].
Qed.
End Phones.

(** C3.  One pass over a text keeps duplicates.  The number of a
    WhatsApp link is looked up in [seen] without the [+] under which the
    normalized numbers are stored, so the link ["wa.me/51987654321"]
    gives two phone contacts normalized ["+51987654321"] (the mobile
    pattern finds the nine digits inside the link, the link pattern the
    whole number); and [extract_emails] has no [seen] at all, so an
    address written twice gives two email contacts. *)
Theorem extraction_keeps_duplicates `{Libs} :
  phone_e164 (u "987654321") (Some (u "PE")) = Some (u "+51987654321") ->
  phone_e164 (u "51987654321") None = None ->
  validate_email (u "ana@gmail.com") = Some (u "ana@gmail.com") ->
  List.map extractors.normalized
    (extractors.phones (extractors.extract_all (u "wa.me/51987654321")))
  = [u "+51987654321"; u "+51987654321"]
  /\ List.map extractors.normalized
       (extractors.emails
          (extractors.extract_all (u "ana@gmail.com, ana@gmail.com")))
     = [u "ana@gmail.com"; u "ana@gmail.com"].
Proof.
  destruct H as [alnum digit low valid e164 region].
  cbn [phone_e164 validate_email]. intros Hpe Hintl Hmail.
  vm_compute in Hpe, Hintl, Hmail.
  split.
  - vm_compute. rewrite Hpe. vm_compute. rewrite Hintl. reflexivity.
  - vm_compute. rewrite Hmail. reflexivity.
Qed.

Lemma extraction_keeps_duplicates_witness :
  List.map extractors.normalized
    (extractors.phones
       (extractors.extract_all (H := Standin.libs) (u "wa.me/51987654321")))
  = [u "+51987654321"; u "+51987654321"]
  /\ List.map extractors.normalized
       (extractors.emails
          (extractors.extract_all (H := Standin.libs)
             (u "ana@gmail.com, ana@gmail.com")))
     = [u "ana@gmail.com"; u "ana@gmail.com"].
Proof.
  apply (extraction_keeps_duplicates (H := Standin.libs)); reflexivity.
Defined.

(** ** The handle pattern *)

Section Handles.
Import extractors.

Lemma greedy_none_left {R} (p : N -> bool) (s : pystr) (k : pystr -> option R) :
  greedy p 0 (Some 0%nat) s k = k s.
Proof. destruct s as [|c s]; simpl; [reflexivity |]. rewrite andb_false_r. reflexivity. Qed.

Lemma handle_run_prefix (n : nat) (s : pystr) :
  firstn (length (Spec.handle_run n s)) s = Spec.handle_run n s.
Proof.
  revert s; induction n as [|n IH]; intros [|c s]; simpl; try reflexivity.
  destruct (handle_char c); simpl; [rewrite IH |]; reflexivity.
Qed.

Lemma handle_run_length (n : nat) (s : pystr) :
  (length (Spec.handle_run n s) <= length s)%nat.
Proof.
  revert s; induction n as [|n IH]; intros [|c s]; simpl; try lia.
  destruct (handle_char c); simpl; [specialize (IH s) |]; lia.
Qed.

Lemma handle_run_chars (n : nat) (s : pystr) :
  forallb handle_char (Spec.handle_run n s) = true.
Proof.
  revert s; induction n as [|n IH]; intros [|c s]; simpl; try reflexivity.
  destruct (handle_char c) eqn:E; simpl; [rewrite E, IH |]; reflexivity.
Qed.

(** A greedy class of handle characters, when what follows accepts
    anything: the run is taken whole. *)
Lemma greedy_handle {R} (n lo : nat) (s : pystr)
    (k : pystr -> option R) (f : pystr -> R) :
  (forall s', k s' = Some (f s')) ->
  greedy handle_char lo (Some n) s k
  = if (lo <=? length (Spec.handle_run n s))%nat
    then Some (f (skipn (length (Spec.handle_run n s)) s))
    else None.
Proof.
  intros Hk. revert n lo; induction s as [|c s IH]; intros n lo.
  - destruct n, lo; simpl; rewrite ?Hk; reflexivity.
  - destruct n as [|n].
    + simpl. rewrite andb_false_r. destruct lo; simpl; rewrite ?Hk; reflexivity.
    + simpl. destruct (handle_char c) eqn:Ec; simpl.
      * rewrite IH.
        destruct lo as [|lo]; simpl; [reflexivity |].
        destruct (lo <=? length (Spec.handle_run n s))%nat; reflexivity.
      * destruct lo; simpl; rewrite ?Hk; reflexivity.
Qed.

Lemma match_at_handle (s : pystr) :
  match_at instagram_username s
  = match s with
    | c :: s1 =>
        if (c =? 64)%N && (1 <=? length (Spec.handle_run 30 s1))%nat
        then Some (handle_match s1)
        else None
    | [] => None
    end.
Proof.
  destruct s as [|c s1]; [reflexivity |].
  unfold match_at, instagram_username, chr, one.
  cbn [exec]. cbn [greedy]. cbn [may_take andb].
  rewrite andb_true_r, N.eqb_sym.
  destruct (c =? 64)%N eqn:Ec; [| reflexivity].
  apply N.eqb_eq in Ec; subst c. cbn [Nat.pred option_map andb].
  rewrite greedy_none_left.
  rewrite (greedy_handle 30 1 s1 _
             (fun s' =>
                {| m_text := firstn (length (64%N :: s1) - length s') (64%N :: s1);
                   m_caps := [(1%nat, firstn (length s1 - length s') s1)] |}))
    by reflexivity.
  destruct (1 <=? length (Spec.handle_run 30 s1))%nat; [| reflexivity].
  f_equal. unfold handle_match.
  pose proof (handle_run_length 30 s1) as Hl.
  rewrite length_skipn.
  replace (length s1 - (length s1 - length (Spec.handle_run 30 s1)))%nat
    with (length (Spec.handle_run 30 s1)) by lia.
  cbn [length].
  replace (S (length s1) - (length s1 - length (Spec.handle_run 30 s1)))%nat
    with (S (length (Spec.handle_run 30 s1))) by lia.
  cbn [firstn]. rewrite handle_run_prefix. reflexivity.
Qed.






End Handles.

Section Usernames.
Context `{Libs}.
Import extractors.



End Usernames.



(** ** The scraping run *)

Section Run.
Context `{Libs} (o : api_scraper.Oracle) (job_id : pystr).
Import api_scraper.



















End Run.


Section Persist.
Context `{Libs} (o : api_scraper.Oracle).
Import api_scraper.























End Persist.


(** ** The score as a sum of components *)

(* definitions to add to Spec *)
Section Dict.
Context {V : Type}.

Lemma dict_get_set_eq (k : pystr) (v : V) (d : dict V) :
  dict_get k (dict_set k v d) = Some v.
Proof.
  induction d as [|[k' v'] d IH]; simpl.
  - rewrite str_eqb_refl. reflexivity.
  - destruct (str_eqb k k') eqn:E; simpl; rewrite ?str_eqb_refl, ?E; auto.
Qed.

Lemma dict_get_set_ne (k k' : pystr) (v : V) (d : dict V) :
  k <> k' -> dict_get k' (dict_set k v d) = dict_get k' d.
Proof.
  intros Hne. induction d as [|[k0 v0] d IH]; simpl.
  - destruct (str_eqb k' k) eqn:E; [| reflexivity].
    apply str_eqb_eq in E. congruence.
  - destruct (str_eqb k k0) eqn:E; simpl.
    + apply str_eqb_eq in E. subst k0.
      destruct (str_eqb k' k) eqn:E'; [| reflexivity].
      apply str_eqb_eq in E'. congruence.
    + rewrite IH. reflexivity.
Qed.

Lemma dict_set_keys (k : pystr) (v : V) (d : dict V) :
  List.map fst (dict_set k v d)
  = if str_in k (List.map fst d) then List.map fst d
    else List.map fst d ++ [k].
Proof.
  induction d as [|[k' v'] d IH]; simpl; [reflexivity |].
  destruct (str_eqb k k') eqn:E; simpl.
  - apply str_eqb_eq in E. subst. reflexivity.
  - rewrite IH. unfold str_in.
    destruct (existsb (str_eqb k) (List.map fst d)); reflexivity.
Qed.

Lemma dict_set_keys_NoDup (k : pystr) (v : V) (d : dict V) :
  NoDup (List.map fst d) -> NoDup (List.map fst (dict_set k v d)).
Proof.
  intros Hnd. rewrite dict_set_keys.
  destruct (str_in k (List.map fst d)) eqn:E; [assumption |].
  apply str_in_false in E.
  apply NoDup_app. split; [assumption |]. split; [| apply NoDup_singleton].
  intros x Hx Hx'. apply list_elem_of_In in Hx, Hx'.
  destruct Hx' as [<- | []]. contradiction.
Qed.
End Dict.

Section Breakdown.
Context `{Libs}.
Import lead lead_scorer.

Lemma accumulate_app cs1 cs2 st :
  accumulate (cs1 ++ cs2) st = accumulate cs2 (accumulate cs1 st).
Proof. unfold accumulate. apply fold_left_app. Qed.

Lemma calculate_score_accumulate (l : Lead) (now : Z) :
  calculate_score l now
  = (Z.max 0 (Z.min 100 (snd (accumulate (all_components l now) ([], 0)))),
     List.map (fun kv => (fst kv, vars (snd kv)))
       (fst (accumulate (all_components l now) ([], 0)))).
Proof.
  unfold calculate_score, all_components.
  rewrite !accumulate_app. reflexivity.
Qed.

Lemma accumulate_total cs : forall st,
  snd (accumulate cs st) = snd st + sum_points cs.
Proof.
  induction cs as [|c cs IH]; intros st.
  - unfold sum_points; simpl. lia.
  - change (accumulate (c :: cs) st)
      with (accumulate cs (dict_set (name c) c (fst st), snd st + points c)).
    rewrite IH. unfold sum_points. simpl. lia.
Qed.

(** X1.  The total of [calculate_score] is the sum of the points of all
    the components, in evaluation order, brought into 0..100 once at the
    end: no component is dropped from the total and nothing is clamped
    on the way. *)
Theorem total_is_clamped_sum (l : Lead) (now : Z) :
  fst (calculate_score l now)
  = clamp_0_100 (sum_points (all_components l now)).
Proof.
  rewrite calculate_score_accumulate. cbn [fst].
  rewrite accumulate_total. reflexivity.
Qed.

Lemma accumulate_keys_NoDup cs : forall st,
  NoDup (List.map fst (fst st)) ->
  NoDup (List.map fst (fst (accumulate cs st))).
Proof.
  induction cs as [|c cs IH]; intros st Hst; [exact Hst |].
  change (accumulate (c :: cs) st)
    with (accumulate cs (dict_set (name c) c (fst st), snd st + points c)).
  apply IH. cbn [fst]. apply dict_set_keys_NoDup. exact Hst.
Qed.

Lemma find_rev_cons k c cs :
  last_named k (c :: cs)
  = match last_named k cs with
    | Some x => Some x
    | None => if str_eqb k (name c) then Some c else None
    end.
Proof.
  unfold last_named. cbn [rev].
  induction (rev cs) as [|x xs IH]; simpl.
  - reflexivity.
  - destruct (str_eqb k (name x)); [reflexivity | exact IH].
Qed.

Lemma accumulate_lookup k cs : forall st,
  dict_get k (fst (accumulate cs st))
  = match last_named k cs with
    | Some c => Some c
    | None => dict_get k (fst st)
    end.
Proof.
  induction cs as [|c cs IH]; intros st; [reflexivity |].
  change (accumulate (c :: cs) st)
    with (accumulate cs (dict_set (name c) c (fst st), snd st + points c)).
  rewrite IH, find_rev_cons. cbn [fst].
  destruct (last_named k cs); [reflexivity |].
  destruct (str_eqb k (name c)) eqn:E.
  - apply str_eqb_eq in E. subst k. apply dict_get_set_eq.
  - apply dict_get_set_ne. intros Heq.
    rewrite <- Heq, str_eqb_refl in E. discriminate.
Qed.

Lemma dict_get_map {A B} (f : A -> B) k (d : dict A) :
  dict_get k (List.map (fun kv => (fst kv, f (snd kv))) d)
  = option_map f (dict_get k d).
Proof.
  induction d as [|[k' v] d IH]; simpl; [reflexivity |].
  destruct (str_eqb k k'); [reflexivity | exact IH].
Qed.

(** X2.  The breakdown of [calculate_score] has one entry per component
    name, and the entry is that of the last component with the name: of
    two keyword components (or two destination components) of a lead the
    first is counted in the total and lost from the breakdown. *)
Theorem breakdown_keeps_last_of_each_name (l : Lead) (now : Z) :
  NoDup (List.map fst (snd (calculate_score l now)))
  /\ forall k,
       dict_get k (snd (calculate_score l now))
       = option_map vars (last_named k (all_components l now)).
Proof.
  rewrite calculate_score_accumulate. cbn [snd]. split.
  - rewrite List.map_map. cbn [fst].
    apply (accumulate_keys_NoDup _ ([], 0)). constructor.
  - intros k. rewrite dict_get_map, accumulate_lookup. cbn [fst dict_get].
    destruct (last_named k (all_components l now)); reflexivity.
Qed.
End Breakdown.

(** ** Leads entered and rescored through the API *)

Section Rescoring.
Context `{Libs}.
Import lead lead_scorer.

Lemma sum_points_app cs1 cs2 :
  sum_points (cs1 ++ cs2) = sum_points cs1 + sum_points cs2.
Proof.
  unfold sum_points. rewrite List.map_app, fold_right_app.
  induction (List.map points cs1) as [|x xs IH]; simpl; lia.
Qed.

Lemma score_splits (l : Lead) (now : Z) :
  fst (calculate_score l now)
  = clamp_0_100 (sum_points (other_components l now)
                 + phase_points (phase l)).
Proof.
  rewrite calculate_score_accumulate. cbn [fst]. rewrite accumulate_total.
  unfold all_components, other_components.
  rewrite !sum_points_app. cbn [snd].
  assert (E : sum_points [_score_travel_phase l]
              = phase_points (phase l)).
  { unfold _score_travel_phase. destruct (phase l); reflexivity. }
  rewrite E. unfold clamp_0_100. f_equal. f_equal. lia.
Qed.

Lemma other_components_clock (l : Lead) (now1 now2 : Z) :
  Spec.recent l now1 = Spec.recent l now2 ->
  other_components l now1 = other_components l now2.
Proof.
  intros Hr. unfold other_components.
  assert (E : _score_engagement l now1 = _score_engagement l now2).
  { unfold Spec.recent, _score_engagement in *.
    destruct (last_interaction_at l) as [t|]; [| reflexivity].
    rewrite Hr. reflexivity. }
  rewrite E. reflexivity.
Qed.

(** One round changes the score, the phase, the breakdown and one
    timestamp, and nothing the other components read. *)
Lemma recalculate_score_fields (l : Lead) (n t now : Z) :
  other_components (api_leads.recalculate_score l n t) now
  = other_components l now
  /\ Spec.recent (api_leads.recalculate_score l n t) now = Spec.recent l now
  /\ score (api_leads.recalculate_score l n t)
     = clamp_0_100 (sum_points (other_components l n)
                    + phase_points (phase l))
  /\ phase (api_leads.recalculate_score l n t)
     = phase_of_score (score (api_leads.recalculate_score l n t)).
Proof.
  repeat split.
  unfold api_leads.recalculate_score.
  change (score (update_score l (fst (calculate_score l n))
                   (snd (calculate_score l n)) t))
    with (Z.max 0 (Z.min 100 (fst (calculate_score l n)))).
  rewrite score_splits. unfold clamp_0_100. lia.
Qed.

Lemma phase_of_score_cases (s : Z) :
  (70 <= s /\ phase_of_score s = BOOKING)
  \/ (40 <= s < 70 /\ phase_of_score s = PLANNING)
  \/ (s < 40 /\ phase_of_score s = DREAMING).
Proof.
  unfold phase_of_score.
  destruct (Z.leb_spec 70 s); [left; split; [lia | reflexivity] |].
  destruct (Z.leb_spec 40 s); [right; left | right; right];
    (split; [lia | reflexivity]).
Qed.

Lemma phase_settles (b : Z) (p0 : LeadPhase) :
  let step p := phase_of_score (clamp_0_100 (b + phase_points p)) in
  step (step (step p0)) = step (step p0).
Proof.
  intros step. unfold step.
  destruct (phase_of_score_cases (clamp_0_100 (b + 10)))
    as [[Hd Ed] | [[Hd Ed] | [Hd Ed]]];
  destruct (phase_of_score_cases (clamp_0_100 (b + 20)))
    as [[Hp Ep] | [[Hp Ep] | [Hp Ep]]];
  destruct (phase_of_score_cases (clamp_0_100 (b + 30)))
    as [[Hb Eb] | [[Hb Eb] | [Hb Eb]]];
  try (exfalso; unfold clamp_0_100 in *; lia);
  destruct p0; cbn [phase_points];
  repeat (first [rewrite Ed | rewrite Ep | rewrite Eb];
          cbn [phase_points]);
  reflexivity.
Qed.

(** X3.  [recalculate_score] scores the lead with the phase the round
    before gave it, so a second round may give another score than the
    first.  While the lead is not touched otherwise and its last
    interaction stays on one side of the seven days, the fourth
    round gives the score and the phase of the third. *)
Theorem rescoring_settles_at_the_third_round
    (l : Lead) (n1 t1 n2 t2 n3 t3 n4 t4 : Z) :
  Spec.recent l n1 = Spec.recent l n2 ->
  Spec.recent l n2 = Spec.recent l n3 ->
  Spec.recent l n3 = Spec.recent l n4 ->
  let l1 := api_leads.recalculate_score l n1 t1 in
  let l2 := api_leads.recalculate_score l1 n2 t2 in
  let l3 := api_leads.recalculate_score l2 n3 t3 in
  let l4 := api_leads.recalculate_score l3 n4 t4 in
  score l4 = score l3 /\ phase l4 = phase l3.
Proof.
  intros H12 H23 H34 l1 l2 l3 l4.
  destruct (recalculate_score_fields l n1 t1 n2) as (O1 & R1 & S1 & P1).
  destruct (recalculate_score_fields l1 n2 t2 n3) as (O2 & R2 & S2 & P2).
  destruct (recalculate_score_fields l2 n3 t3 n4) as (O3 & R3 & S3 & P3).
  destruct (recalculate_score_fields l3 n4 t4 n4) as (O4 & R4 & S4 & P4).
  fold l1 in O1, R1, S1, P1, O2, R2, S2, P2.
  fold l2 in O2, R2, S2, P2, O3, R3, S3, P3.
  fold l3 in O3, R3, S3, P3, O4, R4, S4, P4.
  fold l4 in O4, R4, S4, P4.
  set (b := sum_points (other_components l n1)) in *.
  assert (B2 : sum_points (other_components l1 n2) = b).
  { rewrite O1. unfold b. f_equal. symmetry.
    apply other_components_clock. exact H12. }
  assert (R13 : Spec.recent l1 n3 = Spec.recent l1 n2).
  { destruct (recalculate_score_fields l n1 t1 n3) as (_ & R & _).
    fold l1 in R. rewrite R, R1. congruence. }
  assert (B3 : sum_points (other_components l2 n3) = b).
  { rewrite O2, <- B2. f_equal. apply other_components_clock. exact R13. }
  assert (R24 : Spec.recent l2 n4 = Spec.recent l2 n3).
  { destruct (recalculate_score_fields l1 n2 t2 n4) as (_ & R & _).
    fold l2 in R. rewrite R, R2.
    destruct (recalculate_score_fields l n1 t1 n4) as (_ & R' & _).
    fold l1 in R'. rewrite R', R13, R1. congruence. }
  assert (B4 : sum_points (other_components l3 n4) = b).
  { rewrite O3, <- B3. f_equal. apply other_components_clock. exact R24. }
  rewrite B2 in S2. rewrite B3 in S3. rewrite B4 in S4.
  assert (Hp : phase l3 = phase l2).
  { rewrite P3, S3, P2, S2, P1, S1. apply (phase_settles b (phase l)). }
  assert (Hs : score l4 = score l3).
  { rewrite S4, S3, Hp. reflexivity. }
  split; [exact Hs |]. rewrite P4, P3, Hs. reflexivity.
Qed.

(** X4.  A lead entered by hand through [create_lead] scores 0, 25, 30,
    45 or 60 and is never in the booking phase, whatever was typed in:
    it is not a hot lead before it is scored again. *)
Theorem manual_lead_is_never_hot
    (data : api_leads.LeadCreate) (created updated now : Z) :
  In (score (api_leads.create_lead data created updated now))
     [0; 25; 30; 45; 60]
  /\ phase (api_leads.create_lead data created updated now) <> BOOKING
  /\ is_hot_lead (api_leads.create_lead data created updated now) = false.
Proof.
  unfold api_leads.create_lead.
  destruct data as [nm em ph sp nt]; cbn [api_leads.email api_leads.phone
    api_leads.name api_leads.source_platform api_leads.notes].
  set (sb := calculate_score _ 0).
  assert (Hs : In (fst sb) [0; 25; 30; 45; 60]).
  { unfold sb. rewrite score_splits.
    unfold other_components, _score_contact_info, _score_keywords,
      _score_destinations, _score_engagement, _apply_penalties.
    cbn [contact phase detected_keywords interested_destinations
         interactions last_interaction_at is_bot bot_probability
         lead.email lead.phone lead.whatsapp_available].
    destruct ph as [[|p ph]|], em as [[|e em]|]; cbn [truthy negb andb];
      try destruct (str_in _ disposable_domains);
      vm_compute; tauto. }
  unfold is_hot_lead.
  change (score (update_score _ (fst sb) (snd sb) now))
    with (Z.max 0 (Z.min 100 (fst sb))).
  change (phase (update_score _ (fst sb) (snd sb) now))
    with (phase_of_score (Z.max 0 (Z.min 100 (fst sb)))).
  cbn [In] in Hs.
  destruct Hs as [<- | [<- | [<- | [<- | [<- | []]]]]];
    vm_compute; (split; [tauto | split; [discriminate | reflexivity]]).
Qed.
End Rescoring.

Lemma rescoring_witness :
  List.map lead.score
    [ api_leads.create_lead (H := Standin.libs) Samples.ana 0 0 0;
      api_leads.recalculate_score (H := Standin.libs)
        (api_leads.create_lead (H := Standin.libs) Samples.ana 0 0 0) 1 1;
      api_leads.recalculate_score (H := Standin.libs)
        (api_leads.recalculate_score (H := Standin.libs)
           (api_leads.create_lead (H := Standin.libs) Samples.ana 0 0 0)
           1 1) 2 2 ]
  = [60; 70; 80]
  /\ (let l := api_leads.create_lead (H := Standin.libs) Samples.ana 0 0 0 in
      let l1 := api_leads.recalculate_score (H := Standin.libs) l 1 1 in
      let l2 := api_leads.recalculate_score (H := Standin.libs) l1 2 2 in
      let l3 := api_leads.recalculate_score (H := Standin.libs) l2 3 3 in
      let l4 := api_leads.recalculate_score (H := Standin.libs) l3 4 4 in
      lead.score l4 = lead.score l3 /\ lead.phase l4 = lead.phase l3).
Proof.
  split; [vm_compute; reflexivity |].
  apply (rescoring_settles_at_the_third_round (H := Standin.libs)
           (api_leads.create_lead (H := Standin.libs) Samples.ana 0 0 0)
           1 1 2 2 3 3 4 4); reflexivity.
Defined.

(** ** Priority labels and job progress *)

Section Priority.
Import lead lead_scorer.

(** X5.  The label of [Lead.get_priority_level] is the label
    [get_lead_priority] gives the score under the default thresholds,
    after an emoji; and under any thresholds a higher score is never
    given a colder label: hot stays hot, and what is cold was cold. *)
Theorem priority_labels_agree_and_grow (settings : config.Settings)
    (l : Lead) (s1 s2 : Z) :
  (exists mark,
     get_priority_level l
     = mark ++ u " " ++ get_lead_priority config.defaults (score l))
  /\ (s1 <= s2 ->
      (get_lead_priority settings s1 = u "HOT" ->
       get_lead_priority settings s2 = u "HOT")
      /\ (get_lead_priority settings s2 = u "COLD" ->
          get_lead_priority settings s1 = u "COLD")).
Proof.
  split.
  - unfold get_priority_level, get_lead_priority, config.defaults;
      cbn [config.hot_lead_threshold config.warm_lead_threshold].
    destruct (80 <=? score l); [| destruct (50 <=? score l)];
      [ exists (u "🔥") | exists (u "🌡️") | exists (u "❄️") ];
      vm_compute; reflexivity.
  - intros Hle. unfold get_lead_priority.
    destruct (Z.leb_spec (config.hot_lead_threshold settings) s1),
             (Z.leb_spec (config.hot_lead_threshold settings) s2),
             (Z.leb_spec (config.warm_lead_threshold settings) s1),
             (Z.leb_spec (config.warm_lead_threshold settings) s2);
      split; intros E; try reflexivity; try lia;
      vm_compute in E; discriminate.
Qed.

(** X6.  After [update_score] the phase follows the score, so
    [is_hot_lead] is the score (clamped) reaching 80, and
    [should_notify_sales] under the default thresholds is that and a
    WhatsApp number. *)
Theorem hot_after_update_is_score_alone
    (l : Lead) (new_score t : Z) (breakdown : dict ScoreEntry) :
  is_hot_lead (update_score l new_score breakdown t)
  = (80 <=? clamp_0_100 new_score)
  /\ should_notify_sales config.defaults
       (update_score l new_score breakdown t)
     = (80 <=? clamp_0_100 new_score) && whatsapp_available (contact l).
Proof.
  unfold is_hot_lead, should_notify_sales, update_score, phase_of_score,
    clamp_0_100; cbn.
  destruct (Z.leb_spec 80 (Z.max 0 (Z.min 100 new_score)));
    destruct (Z.leb_spec 70 (Z.max 0 (Z.min 100 new_score)));
    try lia; split; reflexivity.
Qed.
End Priority.

Section Jobs.
Import scraping_job.

(** X7.  No method of [ScrapingJob] takes the progress out of 0..100:
    [update_progress] clamps what it is given, [complete] sets 100, the
    others leave it. *)
Theorem progress_stays_in_range
    (j : ScrapingJob) (found qualified p now : Z) (error message : pystr) :
  progress_in_range j ->
  progress_in_range (start j now)
  /\ progress_in_range (complete j found qualified now)
  /\ progress_in_range (fail j error now)
  /\ progress_in_range (add_log j message now)
  /\ progress_in_range (update_progress j p).
Proof.
  unfold progress_in_range. intros Hj. repeat split; simpl; lia.
Qed.
End Jobs.

Lemma progress_stays_in_range_witness :
  progress_in_range Samples.finished_job
  /\ progress_in_range (scraping_job.start Samples.finished_job 9)
  /\ progress_in_range (scraping_job.complete Samples.finished_job 3 2 9)
  /\ progress_in_range (scraping_job.fail Samples.finished_job (u "boom") 9)
  /\ progress_in_range
       (scraping_job.add_log Samples.finished_job (u "late") 9)
  /\ progress_in_range
       (scraping_job.update_progress Samples.finished_job 250).
Proof.
  split; [vm_compute; split; discriminate |].
  apply (progress_stays_in_range Samples.finished_job 3 2 250 9
           (u "boom") (u "late")).
  vm_compute; split; discriminate.
Defined.

(** ** Keywords and destinations of a text *)

Lemma add_new_fold {A} (P : A -> bool) (g : A -> pystr) (xs : list A) :
  forall found,
    NoDup found ->
    NoDup (fold_left (add_new P g) xs found)
    /\ forall y,
         In y (fold_left (add_new P g) xs found)
         <-> In y found \/ exists x, In x xs /\ P x = true /\ g x = y.
Proof.
  induction xs as [|x xs IH]; intros found Hnd; cbn [fold_left].
  - split; [exact Hnd |]. intros y. split; [auto |].
    intros [Hy | (x & [] & _)]. exact Hy.
  - assert (Hnd' : NoDup (add_new P g found x)).
    { unfold add_new. destruct (P x); cbn [andb]; [| exact Hnd].
      destruct (str_in (g x) found) eqn:E; cbn [negb]; [exact Hnd |].
      apply str_in_false in E.
      apply NoDup_app. split; [exact Hnd |].
      split; [| apply NoDup_singleton].
      intros z Hz Hz'. apply list_elem_of_In in Hz, Hz'.
      destruct Hz' as [<- | []]. contradiction. }
    destruct (IH _ Hnd') as [Hr Hin]. split; [exact Hr |].
    intros y. rewrite Hin. unfold add_new.
    destruct (P x) eqn:Px; cbn [andb].
    + destruct (str_in (g x) found) eqn:E; cbn [negb].
      * apply str_in_In in E. split.
        -- intros [Hy | (x' & Hx' & Hp & Hg)]; [auto |].
           right. exists x'. split; [right; exact Hx' | auto].
        -- intros [Hy | (x' & [<- | Hx'] & Hp & Hg)]; [auto | |].
           ++ left. subst y. exact E.
           ++ right. exists x'. auto.
      * split.
        -- intros [Hy | (x' & Hx' & Hp & Hg)].
           ++ apply in_app_iff in Hy as [Hy | [<- | []]]; [auto |].
              right. exists x. split; [left; reflexivity | auto].
           ++ right. exists x'. split; [right; exact Hx' | auto].
        -- intros [Hy | (x' & [<- | Hx'] & Hp & Hg)].
           ++ left. apply in_app_iff. auto.
           ++ left. apply in_app_iff. right. left. exact Hg.
           ++ right. exists x'. auto.
    + split.
      * intros [Hy | (x' & Hx' & Hp & Hg)]; [auto |].
        right. exists x'. split; [right; exact Hx' | auto].
      * intros [Hy | (x' & [<- | Hx'] & Hp & Hg)]; [auto | congruence |].
        right. exists x'. auto.
Qed.

Lemma fold_left_same {A B} (f g : A -> B -> A) (xs : list B) :
  (forall a b, f a b = g a b) ->
  forall a, fold_left f xs a = fold_left g xs a.
Proof.
  intros Hfg. induction xs as [|x xs IH]; intros a; cbn [fold_left];
    [reflexivity |].
  rewrite Hfg. apply IH.
Qed.

Section Keywords.
Import extractors.

Lemma _extract_keywords_fold (text : pystr) :
  _extract_keywords text
  = fold_left (add_new (fun kw => contains kw text) (fun kw => kw))
      all_keywords [].
Proof. reflexivity. Qed.

Lemma _detect_destinations_fold (title : pystr -> pystr) (text : pystr) :
  _detect_destinations title text
  = fold_left (add_new (fun d => contains d text) title)
      CUSCO_DESTINATIONS [].
Proof.
  unfold _detect_destinations. apply fold_left_same.
  intros found d. unfold add_new.
  destruct (contains d text); reflexivity.
Qed.

(** X8.  [_extract_keywords] returns each keyword of the three lists
    that occurs in the text, once, and nothing else; it returns none
    exactly when [_detect_travel_phase] answers "unknown". *)
Theorem keywords_found_once_each (text : pystr) :
  NoDup (_extract_keywords text)
  /\ (forall kw,
        In kw (_extract_keywords text)
        <-> In kw all_keywords /\ contains kw text = true)
  /\ (_extract_keywords text = []
      <-> fst (_detect_travel_phase text) = u "unknown").
Proof.
  rewrite _extract_keywords_fold.
  destruct (add_new_fold (fun kw => contains kw text) (fun kw => kw)
              all_keywords [] NoDup_nil_2) as [Hnd Hin].
  split; [exact Hnd |].
  assert (Hmem : forall kw,
            In kw (fold_left (add_new (fun kw => contains kw text)
                                (fun kw => kw)) all_keywords [])
            <-> In kw all_keywords /\ contains kw text = true).
  { intros kw. rewrite Hin. split.
    - intros [[] | (x & Hx & Hp & <-)]. auto.
    - intros [Hk Hc]. right. exists kw. auto. }
  split; [exact Hmem |].
  assert (Hno : fold_left (add_new (fun kw => contains kw text)
                             (fun kw => kw)) all_keywords [] = []
                <-> Spec.no_keyword text).
  { unfold Spec.no_keyword. fold all_keywords. split.
    - intros E kw Hk. destruct (contains kw text) eqn:Ec; [| reflexivity].
      assert (Hx : In kw []) by (rewrite <- E; apply Hmem; auto).
      destruct Hx.
    - intros Hall.
      destruct (fold_left _ all_keywords []) as [|k ks] eqn:E;
        [reflexivity |].
      assert (Hk : In k (k :: ks)) by (left; reflexivity).
      apply Hmem in Hk as [Hk Hc]. rewrite (Hall k Hk) in Hc. discriminate. }
  rewrite Hno, no_keyword_counts.
  unfold _detect_travel_phase.
  destruct (Nat.eqb_spec
              (count_hits HIGH_INTENT_KEYWORDS text
               + count_hits PLANNING_KEYWORDS text
               + count_hits DREAMING_KEYWORDS text) 0) as [E0 | N0].
  - split; [reflexivity | intros _; exact E0].
  - split; [intros E; contradiction |].
    destruct ((_ <=? _)%nat && (_ <=? _)%nat); [| destruct (_ <=? _)%nat];
      intros E; vm_compute in E; discriminate.
Qed.

(** X9.  [_detect_destinations] returns the titled names of the
    destinations that occur in the text, each once. *)
Theorem destinations_found_once_each (title : pystr -> pystr)
    (text : pystr) :
  NoDup (_detect_destinations title text)
  /\ (forall y,
        In y (_detect_destinations title text)
        <-> exists d, In d CUSCO_DESTINATIONS
                      /\ contains d text = true /\ title d = y).
Proof.
  rewrite _detect_destinations_fold.
  destruct (add_new_fold (fun d => contains d text) title
              CUSCO_DESTINATIONS [] NoDup_nil_2) as [Hnd Hin].
  split; [exact Hnd |].
  intros y. rewrite Hin. split; [intros [[] | Hy]; exact Hy | auto].
Qed.
End Keywords.

(** ** The initial score of a post *)

Section Seed.
Context `{Libs}.
Import extractors.

Lemma Forall_snoc {A} (P : A -> Prop) (l : list A) (x : A) :
  List.Forall P l -> P x -> List.Forall P (l ++ [x]).
Proof.
  intros Hl Hx. apply List.Forall_app. split; [exact Hl |].
  constructor; [exact Hx | constructor].
Qed.

Lemma peru_loop_whatsapp ms : forall st,
  List.Forall whatsapp_phone (fst st) ->
  List.Forall whatsapp_phone (fst (peru_loop ms st)).
Proof.
  induction ms as [|m ms IH]; intros st Hst; [exact Hst |].
  unfold peru_loop in *. cbn [fold_left]. apply IH.
  destruct (_normalize_phone m (Some (u "PE"))) as [[|x n]|]; try exact Hst.
  destruct (str_in (x :: n) (snd st)); cbn [negb fst]; [exact Hst |].
  apply Forall_snoc; [exact Hst |].
  repeat split. discriminate.
Qed.

Lemma intl_loop_whatsapp ms : forall st,
  List.Forall whatsapp_phone (fst st) ->
  List.Forall whatsapp_phone (fst (intl_loop ms st)).
Proof.
  induction ms as [|m ms IH]; intros st Hst; [exact Hst |].
  unfold intl_loop in *. cbn [fold_left]. apply IH.
  destruct (_normalize_phone m None) as [[|x n]|]; try exact Hst.
  destruct (str_in (x :: n) (snd st)); cbn [negb fst]; [exact Hst |].
  apply Forall_snoc; [exact Hst |].
  repeat split. discriminate.
Qed.

Lemma wa_loop_whatsapp ms : forall st,
  List.Forall whatsapp_phone (fst st) ->
  List.Forall whatsapp_phone (fst (wa_loop ms st)).
Proof.
  induction ms as [|m ms IH]; intros st Hst; [exact Hst |].
  unfold wa_loop in *. cbn [fold_left]. apply IH.
  destruct m as [[|a g1] [|b g2]]; cbn [fst snd]; try exact Hst;
    (destruct (str_in _ (snd st)); cbn [negb fst]; [exact Hst |];
     apply Forall_snoc; [exact Hst |]; repeat split; discriminate).
Qed.

Lemma extract_phones_whatsapp (text : pystr) :
  List.Forall whatsapp_phone (extract_phones text).
Proof.
  unfold extract_phones, number_pass.
  apply wa_loop_whatsapp, intl_loop_whatsapp, peru_loop_whatsapp.
  constructor.
Qed.

Lemma initial_phase_score_bounds (phase : pystr) :
  0 <= initial_phase_score phase <= 30.
Proof.
  unfold initial_phase_score.
  repeat match goal with |- context [str_eqb ?a ?b] =>
           destruct (str_eqb a b) end; lia.
Qed.

Lemma detected_phase_score (text : pystr) :
  5 <= initial_phase_score (fst (_detect_travel_phase text)).
Proof.
  unfold _detect_travel_phase.
  destruct (_ =? 0)%nat; [vm_compute; discriminate |].
  destruct (_ && _); [vm_compute; discriminate |].
  destruct (_ <=? _)%nat; vm_compute; discriminate.
Qed.

Lemma initial_score_parts (cs : Contacts) (phase : pystr)
    (ds ks : list pystr) :
  exists e k : Z,
    0 <= e <= 15 /\ 0 <= k <= 30
    /\ _calculate_initial_score cs phase ds ks
       = clamp_0_100
           ((match phones cs with
             | _ :: _ =>
                 if existsb is_whatsapp_compatible (phones cs)
                 then 40 else 30
             | [] => 0
             end) + e + initial_phase_score phase + k).
Proof.
  unfold _calculate_initial_score, clamp_0_100.
  set (d := Z.min 15 (Z.of_nat (length ds) * 5)).
  set (h := Z.min 15 (Z.of_nat (length (List.filter _ ks)) * 5)).
  exists (match emails cs with
          | _ :: _ =>
              if existsb (fun c => PrimFloat.ltb (confidence c) 1%float)
                   (emails cs) then 5 else 15
          | [] => 0
          end), (d + h).
  split; [| split].
  - destruct (emails cs); [lia |]. destruct (existsb _ _); lia.
  - unfold d, h. lia.
  - destruct (phones cs) as [|p ps]; [| destruct (existsb _ (p :: ps))];
      (destruct (emails cs) as [|e es];
       [| destruct (existsb _ (e :: es))]); f_equal; f_equal; lia.
Qed.

(** X10.  The initial score of [extract_lead_data] lies in 0..100 and is
    at least 45 when a phone was found, so the filter of the forum
    scraper (score above 20, or a phone) is the score test alone. *)
Theorem seed_score_decides_the_post_filter (title : pystr -> pystr)
    (text url : pystr) :
  0 <= initial_score (extract_lead_data title text url) <= 100
  /\ (phones (contacts (extract_lead_data title text url)) <> [] ->
      45 <= initial_score (extract_lead_data title text url))
  /\ sources.keeps_post (extract_lead_data title text url)
     = (20 <? initial_score (extract_lead_data title text url)).
Proof.
  unfold sources.keeps_post, extract_lead_data;
    cbn [initial_score contacts extract_all phones].
  pose proof (extract_phones_whatsapp text) as Hwa.
  pose proof (detected_phase_score (lower text)) as Hph.
  destruct (initial_score_parts (extract_all text)
              (fst (_detect_travel_phase (lower text)))
              (_detect_destinations title (lower text))
              (_extract_keywords (lower text)))
    as (e & k & He & Hk & ->).
  cbn [extract_all phones]. unfold clamp_0_100.
  destruct (extract_phones text) as [|p ps] eqn:Ep.
  - split; [lia |]. split; [intros Hne; contradiction |].
    rewrite orb_false_r. reflexivity.
  - assert (Hany : existsb is_whatsapp_compatible (p :: ps) = true).
    { apply List.Forall_inv in Hwa. destruct Hwa as (_ & Hw & _).
      cbn [existsb]. rewrite Hw. reflexivity. }
    rewrite Hany. split; [lia |]. split; [intros _; lia |].
    rewrite orb_true_r. symmetry. apply Z.ltb_lt. lia.
Qed.
End Seed.

(** ** What the patterns find *)

Section Substrings.

Lemma greedy_some {R} (p : N -> bool) (s : pystr) :
  forall lo hi (k : pystr -> option R) res,
    greedy p lo hi s k = Some res -> exists s', k s' = Some res.
Proof.
  induction s as [|c s IH]; intros lo hi k res; cbn [greedy].
  - destruct lo; [eauto | discriminate].
  - destruct (p c && may_take hi).
    + destruct (greedy p (Nat.pred lo) (option_map Nat.pred hi) s k) eqn:E.
      * intros [= <-]. eapply IH. exact E.
      * destruct lo; [eauto | discriminate].
    + destruct lo; [eauto | discriminate].
Qed.

Lemma exec_some {R} (r : regex) :
  forall s c (k : pystr -> captures -> option R) res,
    exec r s c k = Some res -> exists s' c', k s' c' = Some res.
Proof.
  induction r as [| p lo hi | r1 IH1 r2 IH2 | r1 IH1 r2 IH2 | i r IH];
    intros s c k res; cbn [exec].
  - eauto.
  - intros E. apply greedy_some in E as (s' & E). eauto.
  - intros E. apply IH1 in E as (s1 & c1 & E). apply IH2 in E. exact E.
  - destruct (exec r1 s c k) eqn:E1.
    + intros [= <-]. apply IH1 in E1. exact E1.
    + apply IH2.
  - intros E. apply IH in E as (s' & c' & E). eauto.
Qed.

(** A match starts where it is tried. *)
Lemma match_at_prefix (r : regex) (s : pystr) (m : re_match) :
  match_at r s = Some m -> exists n, m_text m = firstn n s.
Proof.
  unfold match_at. intros E. apply exec_some in E as (s' & c' & [= <-]).
  cbn [m_text]. eauto.
Qed.

Lemma startswith_firstn (n : nat) (s : pystr) :
  startswith (firstn n s) s = true.
Proof.
  revert n; induction s as [|c s IH]; intros [|n]; cbn; try reflexivity.
  rewrite N.eqb_refl. apply IH.
Qed.

Lemma contains_tail (p : pystr) (c : N) (s : pystr) :
  contains p s = true -> contains p (c :: s) = true.
Proof. intros Hp. cbn [contains]. rewrite Hp. apply orb_true_r. Qed.

Lemma contains_firstn (n : nat) (s : pystr) :
  contains (firstn n s) s = true.
Proof.
  destruct s as [|c s]; cbn [contains]; rewrite startswith_firstn;
    reflexivity.
Qed.

Lemma scan_in_text (r : regex) (s : pystr) :
  forall skip m, In m (scan r s skip) -> contains (m_text m) s = true.
Proof.
  induction s as [|c s IH]; intros skip m; cbn [scan]; [intros [] |].
  destruct skip as [|n].
  - destruct (match_at r (c :: s)) as [m0 |] eqn:E.
    + intros [<- | Hin].
      * apply match_at_prefix in E as (n & ->). apply contains_firstn.
      * apply contains_tail. eapply IH. exact Hin.
    + intros Hin. apply contains_tail. eapply IH. exact Hin.
  - intros Hin. apply contains_tail. eapply IH. exact Hin.
Qed.

Lemma findall0_in_text (r : regex) (text m : pystr) :
  In m (findall0 r text) -> contains m text = true.
Proof.
  unfold findall0. intros Hin. apply in_map_iff in Hin as (x & <- & Hx).
  eapply scan_in_text. exact Hx.
Qed.

Lemma handle_run_bound (n : nat) (s : pystr) :
  (length (Spec.handle_run n s) <= n)%nat.
Proof.
  revert s; induction n as [|n IH]; intros [|c s]; simpl; try lia.
  destruct (extractors.handle_char c); simpl; [specialize (IH s) |]; lia.
Qed.

Lemma scan_handles (s : pystr) :
  forall skip m,
    In m (scan extractors.instagram_username s skip) ->
    handle_text (group 1 (m_caps m)).
Proof.
  induction s as [|c s IH]; intros skip m; cbn [scan]; [intros [] |].
  destruct skip as [|n]; [| apply IH].
  rewrite match_at_handle.
  destruct ((c =? 64)%N && (1 <=? length (Spec.handle_run 30 s))%nat)
    eqn:E; [| apply IH].
  intros [<- | Hin]; [| eapply IH; exact Hin].
  apply andb_true_iff in E as [_ E]. apply Nat.leb_le in E.
  unfold handle_match; cbn [m_caps group Nat.eqb].
  split; [split; [exact E | apply handle_run_bound] |].
  apply handle_run_chars.
Qed.
End Substrings.

Section Contacts.
Context `{Libs}.
Import extractors.

Lemma username_loop_invariant ms : forall st,
  List.Forall handle_text ms ->
  distinct_and_seen st -> List.Forall handle_contact (fst st) ->
  distinct_and_seen (username_loop ms st)
  /\ List.Forall handle_contact (fst (username_loop ms st)).
Proof.
  induction ms as [|m ms IH]; intros st Hms Hst Hc; [split; assumption |].
  change (username_loop (m :: ms) st)
    with (username_loop ms
            (if negb (str_in (lower m) (snd st)) && (2 <? length m)%nat
             then (fst st ++
                   [ {| type := u "username"; value := u "@" ++ m;
                        normalized := lower m; country_code := None;
                        is_whatsapp_compatible := false;
                        confidence := 0.8%float |} ],
                   lower m :: snd st)
             else st)).
  apply List.Forall_cons_iff in Hms as [[Hlen Hch] Hms].
  apply IH; [exact Hms | |];
    destruct (str_in (lower m) (snd st)) eqn:E; cbn [negb andb];
    try assumption;
    destruct (Nat.ltb_spec 2 (length m)); try assumption.
  - destruct st as [cs seen].
    apply (distinct_and_seen_add cs seen
             {| type := u "username"; value := u "@" ++ m;
                normalized := lower m; country_code := None;
                is_whatsapp_compatible := false;
                confidence := 0.8%float |}); assumption.
  - cbn [fst]. apply Forall_snoc; [exact Hc |].
    split; [reflexivity |]. split; [reflexivity |].
    exists m. repeat split; try assumption; lia.
Qed.

Lemma extract_usernames_invariant (text : pystr) :
  NoDup (List.map normalized (extract_usernames text))
  /\ List.Forall handle_contact (extract_usernames text).
Proof.
  unfold extract_usernames.
  destruct (username_loop_invariant
              (findall1 instagram_username text) ([], [])) as [[Hnd _] Hc].
  - unfold findall1. apply List.Forall_forall. intros m Hm.
    apply in_map_iff in Hm as (x & <- & Hx).
    eapply scan_handles. exact Hx.
  - split; [constructor | intros c []].
  - constructor.
  - split; assumption.
Qed.

(** X12.  The usernames of [extract_usernames] are distinct in their
    lower-case form, and each is an [@] followed by three to thirty
    handle characters. *)
Theorem handles_are_distinct_and_bounded (text : pystr) :
  NoDup (List.map normalized (extract_usernames text))
  /\ List.Forall
       (fun c =>
          exists m, value c = u "@" ++ m /\ normalized c = lower m
                    /\ (3 <= length m <= 30)%nat
                    /\ forallb handle_char m = true)
       (extract_usernames text).
Proof.
  destruct (extract_usernames_invariant text) as [Hnd Hc].
  split; [exact Hnd |].
  eapply List.Forall_impl; [| exact Hc].
  intros c (_ & _ & Hm). exact Hm.
Qed.

(** X11.  In the contacts of [extract_all] the WhatsApp flag says no
    more than the kind: it is set on every phone contact, whatever the
    number, and on no email or username contact. *)
Theorem whatsapp_flag_follows_the_kind (text : pystr) :
  List.Forall
    (fun c => is_whatsapp_compatible c = str_eqb (type c) (u "phone"))
    (emails (extract_all text) ++ phones (extract_all text)
     ++ usernames (extract_all text)).
Proof.
  unfold extract_all; cbn [emails phones usernames].
  repeat (apply List.Forall_app; split).
  - unfold extract_emails. apply List.Forall_forall. intros c Hc.
    apply in_flat_map in Hc as (m & Hm & Hc).
    destruct (validate_email m); [| destruct Hc].
    destruct Hc as [<- | []]. reflexivity.
  - eapply List.Forall_impl; [| apply extract_phones_whatsapp].
    intros c (Ht & Hw & _). rewrite Ht, Hw. reflexivity.
  - eapply List.Forall_impl; [| apply extract_usernames_invariant].
    intros c (Ht & Hw & _). rewrite Ht, Hw. reflexivity.
Qed.

Lemma peru_loop_values text ms : forall st,
  List.Forall (fun m => contains m text = true) ms ->
  List.Forall (fun c => contains (value c) text = true) (fst st) ->
  List.Forall (fun c => contains (value c) text = true)
    (fst (peru_loop ms st)).
Proof.
  induction ms as [|m ms IH]; intros st Hms Hst; [exact Hst |].
  unfold peru_loop in *. cbn [fold_left].
  apply List.Forall_cons_iff in Hms as [Hm Hms]. apply IH; [exact Hms |].
  destruct (_normalize_phone m (Some (u "PE"))) as [[|x n]|]; try exact Hst.
  destruct (str_in (x :: n) (snd st)); cbn [negb fst]; [exact Hst |].
  apply Forall_snoc; [exact Hst | exact Hm].
Qed.

Lemma intl_loop_values text ms : forall st,
  List.Forall (fun m => contains m text = true) ms ->
  List.Forall (fun c => contains (value c) text = true) (fst st) ->
  List.Forall (fun c => contains (value c) text = true)
    (fst (intl_loop ms st)).
Proof.
  induction ms as [|m ms IH]; intros st Hms Hst; [exact Hst |].
  unfold intl_loop in *. cbn [fold_left].
  apply List.Forall_cons_iff in Hms as [Hm Hms]. apply IH; [exact Hms |].
  destruct (_normalize_phone m None) as [[|x n]|]; try exact Hst.
  destruct (str_in (x :: n) (snd st)); cbn [negb fst]; [exact Hst |].
  apply Forall_snoc; [exact Hst | exact Hm].
Qed.

Lemma wa_loop_values text ms : forall st,
  List.Forall (value_from text) (fst st) ->
  List.Forall (value_from text) (fst (wa_loop ms st)).
Proof.
  induction ms as [|m ms IH]; intros st Hst; [exact Hst |].
  unfold wa_loop in *. cbn [fold_left]. apply IH.
  destruct m as [[|a g1] [|b g2]]; cbn [fst snd]; try exact Hst;
    match goal with |- context [str_in ?n (snd st)] =>
      destruct (str_in n (snd st)); cbn [negb fst]; [exact Hst |];
      apply Forall_snoc; [exact Hst |]; right; exists n; split; reflexivity
    end.
Qed.

(** X13.  The value of every email contact occurs in the text, and so
    does the value of every phone contact, but for those read from a
    WhatsApp link, whose value is the link ["wa.me/"] made up from the
    number. *)
Theorem matched_values_occur_in_the_text (text : pystr) :
  List.Forall (fun c => contains (value c) text = true)
    (extract_emails text)
  /\ List.Forall (value_from text) (extract_phones text).
Proof.
  split.
  - unfold extract_emails. apply List.Forall_forall. intros c Hc.
    apply in_flat_map in Hc as (m & Hm & Hc).
    destruct (validate_email m); [| destruct Hc].
    destruct Hc as [<- | []]. cbn [value].
    eapply findall0_in_text. exact Hm.
  - unfold extract_phones, number_pass. apply wa_loop_values.
    eapply List.Forall_impl; [intros c Hc; left; exact Hc |].
    apply intl_loop_values;
      [apply List.Forall_forall; intros m Hm;
       eapply findall0_in_text; exact Hm |].
    apply peru_loop_values;
      [apply List.Forall_forall; intros m Hm;
       eapply findall0_in_text; exact Hm | constructor].
Qed.
End Contacts.

(** ** What a run stores *)

Section Stored.
Context `{Libs} (o : api_scraper.Oracle).
Import api_scraper.


Lemma same_leads_raise {A} (e : PyExc) : same_leads (raise (A := A) e).
Proof. intros w; reflexivity. Qed.
















(** X16.  [start_scraping] reads the running flag and never sets it.
    With the flag up it raises the 409 and changes nothing; with the
    flag down it stores a pending job under the new identifier, and a
    second request right after it is accepted as well. *)
Theorem start_never_closes_the_gate (new_id : World -> pystr)
    (r1 r2 : ScrapeRequest) (w : World) :
  _scraper_running (snd (start_scraping o new_id r1 w)) = _scraper_running w
  /\ (_scraper_running w = true ->
      start_scraping o new_id r1 w = (inl conflict, w))
  /\ (_scraper_running w = false ->
      (exists resp,
         fst (start_scraping o new_id r1 w) = inr resp
         /\ response_job_id resp = new_id w
         /\ scraping_job.status
              <$> (jobs (snd (start_scraping o new_id r1 w)) !! new_id w)
            = Some scraping_job.PENDING)
      /\ exists resp2,
           fst (start_scraping o new_id r2
                  (snd (start_scraping o new_id r1 w)))
           = inr resp2).
Proof.
  unfold start_scraping, bind, utcnow, job_save, ret, raise.
  destruct (_scraper_running w) eqn:E; cbn [snd fst _scraper_running].
  - split; [exact E |]. split; [reflexivity | discriminate].
  - split; [reflexivity |]. split; [discriminate |]. intros _.
    rewrite ?E. split.
    + eexists. split; [reflexivity |]. split; [reflexivity |].
      cbn [jobs]. rewrite lookup_insert_eq. reflexivity.
    + eexists. reflexivity.
Qed.
End Stored.

(** ** What a finished run counts *)

Section Tally.
Context `{Libs} (o : api_scraper.Oracle).
Import api_scraper.

Lemma quiet_ret {A} (a : A) : quiet (ret a).
Proof. intros w; exists a; auto. Qed.

Lemma quiet_utcnow : quiet (utcnow o).
Proof. intros w; eexists; cbn; auto. Qed.

Lemma quiet_bind {A B} (m : M A) (f : A -> M B) :
  quiet m -> (forall a, quiet (f a)) -> quiet (bind m f).
Proof.
  intros Hm Hf w. unfold bind. destruct (Hm w) as (a & E & J & L).
  destruct (m w) as [r w1]; cbn [fst snd] in *; subst r.
  destruct (Hf a w1) as (b & E2 & J2 & L2).
  exists b. rewrite E2, J2, L2; auto.
Qed.

Lemma quiet_calculate l : quiet (calculate_score_now o l).
Proof.
  unfold calculate_score_now. destruct (lead.last_interaction_at l).
  - apply quiet_bind; [apply quiet_utcnow | intros; apply quiet_ret].
  - apply quiet_ret.
Qed.

Lemma tally_quiet_bind {A} one c q (m : M A) (f : A -> M loop_state) :
  quiet m -> (forall a, tally one c q (f a)) -> tally one c q (bind m f).
Proof.
  intros Hm Hf w. unfold bind. destruct (Hm w) as (a & E & J & L).
  destruct (m w) as [r w1]; cbn [fst snd] in *; subst r.
  rewrite <- J, <- L. apply Hf.
Qed.

Lemma tally_ret one job c q : tally one c q (ret (job, c, q)).
Proof.
  intros w; cbn. split; [reflexivity |]. exists []; cbn.
  rewrite app_nil_r. repeat split; lia.
Qed.

Lemma tally_save l job c q q' :
  q <= q' <= q + 1 ->
  tally true c q (lead_save o l ;;; ret (job, c + 1, q')).
Proof.
  intros Hq w. unfold bind, lead_save.
  destruct (lead_save_raises o l); cbn.
  - split; [reflexivity | reflexivity].
  - split; [reflexivity |]. exists [l]; cbn. repeat split; lia.
Qed.

Lemma tally_process_result url st i n r job c q :
  tally true c q (process_result o url st i n r (job, c, q)).
Proof.
  assert (Hbody : forall body : M loop_state,
            tally true c q body ->
            tally true c q
              (try_except body
                 (fun e =>
                    now <- utcnow o ;;
                    ret (scraping_job.add_log job
                           (u "Error procesando resultado: " ++ exc_str e)
                           now, c, q)))).
  { intros body Hb w. unfold try_except. specialize (Hb w).
    destruct (body w) as [[e | a] w1]; cbn [fst snd] in *; [| exact Hb].
    destruct Hb as [J L]. destruct (is_Exception e); cbn [fst snd].
    - split; [exact J |]. exists []; cbn. rewrite app_nil_r.
      repeat split; auto; lia.
    - split; [exact J | exact L]. }
  unfold process_result. apply Hbody.
  destruct (extractors.phones (r_contacts r)),
           (extractors.emails (r_contacts r));
    try apply tally_ret;
    (apply tally_quiet_bind; [apply quiet_utcnow | intros created];
     apply tally_quiet_bind; [apply quiet_utcnow | intros updated];
     apply tally_quiet_bind;
       [ destruct (truthy (r_content r));
         [ repeat (apply quiet_bind; [apply quiet_utcnow | intros ?]) |];
         apply quiet_ret
       | intros ld ];
     apply tally_quiet_bind; [apply quiet_calculate | intros sb];
     apply tally_quiet_bind; [apply quiet_utcnow | intros now];
     apply tally_save; destruct (50 <=? fst sb); lia).
Qed.

Lemma tally_process_results url st rs : forall i n job c q,
  tally false c q (process_results o url st i n rs (job, c, q)).
Proof.
  induction rs as [|r rs IH]; intros i n job c q; cbn [process_results].
  - apply tally_ret.
  - intros w. unfold bind.
    pose proof (tally_process_result url st i n r job c q w) as [J1 T1].
    destruct (process_result o url st i n r (job, c, q) w)
      as [[e | [[job1 c1] q1]] w1]; cbn [fst snd] in *.
    + split; [exact J1 | discriminate].
    + destruct T1 as (new1 & L1 & C1 & Q1 & _).
      pose proof (IH (S i) n job1 c1 q1 w1) as [J2 T2].
      split; [congruence |].
      destruct (fst (process_results o url st (S i) n rs (job1, c1, q1) w1))
        as [e | [[job2 c2] q2]]; [discriminate |].
      destruct T2 as (new2 & L2 & C2 & Q2 & _).
      exists (new1 ++ new2). rewrite L2, L1, app_assoc, length_app.
      repeat split; first [lia | discriminate].
Qed.

(** X17.  When the body of a run of an existing job ends without an
    error, the job is completed at progress 100, its [leads_found] is
    the number of leads the run stored, and its [leads_qualified] lies
    between 0 and that number. *)
Theorem finished_run_counts_what_it_stored job_id url st cfg w j0 :
  jobs w !! job_id = Some j0 ->
  fst (run_body o job_id url st cfg w) = inr tt ->
  exists j new,
    jobs (snd (run_scraping_job o job_id url st cfg w)) !! job_id = Some j
    /\ leads (snd (run_scraping_job o job_id url st cfg w))
       = leads w ++ new
    /\ scraping_job.status j = scraping_job.COMPLETED
    /\ scraping_job.progress j = 100
    /\ scraping_job.leads_found j = Z.of_nat (length new)
    /\ 0 <= scraping_job.leads_qualified j
       <= scraping_job.leads_found j.
Proof.
  intros Hj.
  unfold run_scraping_job, try_finally, try_except.
  destruct (run_body o job_id url st cfg w) as [r w'] eqn:Eb.
  cbn [fst]. intros ->. cbn [set_running fst snd jobs leads _scraper_running].
  revert Eb.
  unfold run_body, bind, set_running, ScrapingJob_get, utcnow, job_save,
    get_scraper, scrape, ret, raise.
  cbn [jobs leads ticks _scraper_running fst snd]. rewrite Hj.
  destruct (get_scraper_raises o); [discriminate |].
  destruct (if str_eqb st (u "tripadvisor") then _ else _)
    as [e | results]; [discriminate |].
  match goal with |- context [process_results o url st 0 ?n results ?s ?w1] =>
    pose proof (tally_process_results url st results 0 n
                  (fst (fst s)) 0 0 w1) as [J T];
    cbn [fst snd] in J, T;
    destruct (process_results o url st 0 n results s w1)
      as [[e | [[job c] q]] w2]
  end; [discriminate |].
  cbn [fst snd jobs leads] in *.
  destruct T as (new & L & C & Q & _).
  intros Eb; injection Eb as <-.
  cbn [jobs leads]. rewrite lookup_insert_eq.
  eexists; exists new. split; [reflexivity |].
  split; [exact L |].
  cbn. repeat split; lia.
Qed.

End Tally.

(** ** Navigation and phones, once more *)

(** X18.  [safe_goto] makes the attempts 0, 1, .. in order, one to three
    of them, and stops at the first OK response: it returns [True]
    exactly when the last attempt made got one, and it raises exactly
    when the last attempt raised an error that is not an
    [Exception]. *)
Theorem safe_goto_stops_at_first_ok (goto : nat -> engine.GotoResult) :
  exists k,
    (1 <= k <= 3)%nat
    /\ engine.attempts_of (snd (engine.safe_goto goto)) = seq 0 k
    /\ (forall a, (a < k - 1)%nat ->
          forall s, goto a <> engine.Response true s)
    /\ (fst (engine.safe_goto goto) = inr true
        <-> exists s, goto (k - 1)%nat = engine.Response true s)
    /\ (forall e, fst (engine.safe_goto goto) = inl e
        <-> goto (k - 1)%nat = engine.Raises e /\ is_Exception e = false).
Proof.
  unfold engine.safe_goto; cbn [seq engine.goto_loop app].
  destruct (goto 0%nat) as [[|] s0| |e0] eqn:E0;
    [ exists 1%nat | | |
      destruct (is_Exception e0) eqn:X0; [| exists 1%nat] ];
    try (destruct (goto 1%nat) as [[|] s1| |e1] eqn:E1;
         [ exists 2%nat | | |
           destruct (is_Exception e1) eqn:X1; [| exists 2%nat] ];
         try (destruct (goto 2%nat) as [[|] s2| |e2] eqn:E2;
              [ exists 3%nat | exists 3%nat | exists 3%nat |
                destruct (is_Exception e2) eqn:X2; exists 3%nat ]));
    cbn [Nat.sub Nat.ltb Nat.leb engine.goto_loop fst snd app];
    (split; [lia |]);
    (split; [reflexivity |]);
    (split;
      [ intros a Ha s Hs;
        assert (Ha' : a = 0%nat \/ a = 1%nat) by lia;
        destruct Ha' as [-> | ->]; try lia; congruence |]);
    (split;
      [ split; [ intros Hr; first [ discriminate Hr | eauto ]
               | intros [s Hs]; first [ reflexivity | congruence ] ]
      | intros e; split;
        [ intros Hr; first [ discriminate Hr
                           | injection Hr as <-; split; congruence ]
        | intros [Hr Hx]; first [ congruence
                                | rewrite Hr in *; congruence ] ] ]).
Qed.

Section PhonesMore.
Context `{Libs}.
Import extractors.

(** X19.  On a text without a WhatsApp link, no two phone contacts of
    [extract_phones] have the same normalized number. *)
Theorem phones_are_distinct_without_links (text : pystr) :
  Regex.findall2 whatsapp_link text = [] ->
  NoDup (List.map normalized (extract_phones text)).
Proof.
  intros Hno. unfold extract_phones. rewrite Hno.
  apply number_pass_distinct.
Qed.
End PhonesMore.

Lemma phones_are_distinct_witness :
  Regex.findall2 (extractors.whatsapp_link (H := Standin.libs))
    (u "llama al 987654321 o al 987 654 321") = []
  /\ List.map extractors.normalized
       (extractors.extract_phones (H := Standin.libs)
          (u "llama al 987654321 o al 987 654 321"))
     = [u "+51987654321"]
  /\ NoDup (List.map extractors.normalized
              (extractors.extract_phones (H := Standin.libs)
                 (u "llama al 987654321 o al 987 654 321"))).
Proof.
  split; [vm_compute; reflexivity |].
  split; [vm_compute; reflexivity |].
  apply (phones_are_distinct_without_links (H := Standin.libs)).
  vm_compute; reflexivity.
Defined.


Lemma finished_run_witness :
  exists j new,
    api_scraper.jobs
      (snd (api_scraper.run_scraping_job (H := Standin.libs)
              Samples.one_candidate (u "job-1") (u "https://example.com")
              (u "generic") [] Samples.one_pending_job))
    !! u "job-1" = Some j
    /\ api_scraper.leads
         (snd (api_scraper.run_scraping_job (H := Standin.libs)
                 Samples.one_candidate (u "job-1")
                 (u "https://example.com") (u "generic") []
                 Samples.one_pending_job))
       = api_scraper.leads Samples.one_pending_job ++ new
    /\ scraping_job.status j = scraping_job.COMPLETED
    /\ scraping_job.progress j = 100
    /\ scraping_job.leads_found j = Z.of_nat (length new)
    /\ 0 <= scraping_job.leads_qualified j
       <= scraping_job.leads_found j.
Proof.
  apply (finished_run_counts_what_it_stored (H := Standin.libs)
           Samples.one_candidate (u "job-1") (u "https://example.com")
           (u "generic") [] Samples.one_pending_job
           (scraping_job.ScrapingJob_new (u "generic")
              (u "https://example.com") [] 0));
    vm_compute; reflexivity.
Defined.
